(** * lidar_obstacle_detector: the ROS node [obstacle_detector_node.cpp]

    A shallow embedding of the node that drives the detection pipeline:
    the dynamic-parameter callback, the per-frame point-cloud callback,
    the two cloud publishers and the two box serialisers.

    The node keeps state across callbacks (the id counter, the previous
    and current box vectors, the namespace-scope parameters), talks to
    the outside through publishers and the tf2 buffer, and has one place
    where an exception is thrown and caught.  The embedding therefore
    runs in a small state-and-exception monad over a [World] that holds
    the parameters, the node's members, the tf2 buffer and a trace of
    everything the node did. *)

From Stdlib Require Import String ZArith List Bool Lia Floats.
Import ListNotations.
Open Scope Z_scope.

(** ** Scalars

    [float] and [double] values are carried as binary64 values: every
    binary32 value is one, so widening a C++ [float] to a [double] is the
    identity.  Narrowing a [double] to a [float] rounds to 24 bits of
    precision (to nearest, ties to even), overflowing to an infinity. *)

Definition float_of_double (d : float) : float :=
  match Prim2SF d with
  | S754_finite s m e => SF2Prim (binary_round 24 128 s m e)
  | _ => d
  end.

(** [size_t] of the LP64 targets ROS runs on. *)
Definition SIZE_MAX : Z := 2 ^ 64 - 1.

(** Conversion of an integer to an unsigned 32-bit message field. *)
Definition uint32_of (z : Z) : Z := z mod 2 ^ 32.

(** ** Eigen values *)

Record Vector3f := mkVector3f { v3_0 : float; v3_1 : float; v3_2 : float }.

Record Vector4f := mkVector4f
  { v4_0 : float; v4_1 : float; v4_2 : float; v4_3 : float }.

Record Quaternionf := mkQuaternionf
  { q_w : float; q_x : float; q_y : float; q_z : float }.

(** Modelled from the spec: [Box] is declared in
    [lidar_obstacle_detector/obstacle_detector.hpp], which is not among
    the sources.  The spec's data model gives it an integer [id], a 3D
    [position], a 3D [dimension] and a rotation; the node reads exactly
    these four members. *)
Record Box := mkBox
  { id : Z;
    position : Vector3f;
    dimension : Vector3f;
    quaternion : Quaternionf }.

Definition set_id (b : Box) (i : Z) : Box :=
  mkBox i (position b) (dimension b) (quaternion b).

(** ** ROS messages (the fields the node touches) *)

Module std_msgs.
Record Header := mkHeader { seq : Z; stamp : Z; frame_id : string }.
Definition set_frame_id (h : Header) (f : string) : Header :=
  mkHeader (seq h) (stamp h) f.
Definition empty : Header := mkHeader 0 0 ""%string.
End std_msgs.

Module geometry_msgs.
Record Point := mkPoint { x : float; y : float; z : float }.
Record Vector3 := mkVector3 { vx : float; vy : float; vz : float }.
Record Quaternion := mkQuaternion
  { qx : float; qy : float; qz : float; qw : float }.
Record Pose := mkPose { position : Point; orientation : Quaternion }.
Record TransformStamped := mkTransformStamped
  { header : std_msgs.Header;
    child_frame_id : string;
    translation : Vector3;
    rotation : Quaternion }.
End geometry_msgs.

Module pcl.
Record PointXYZ := mkPointXYZ { x : float; y : float; z : float }.
(** A [pcl::PointCloud<pcl::PointXYZ>]: its points, in order. *)
Definition PointCloud := list PointXYZ.
End pcl.

Module sensor_msgs.
Record PointCloud2 := mkPointCloud2
  { header : std_msgs.Header; data : pcl.PointCloud }.
End sensor_msgs.

Module jsk_recognition_msgs.
Record BoundingBox := mkBoundingBox
  { header : std_msgs.Header;
    pose : geometry_msgs.Pose;
    dimensions : geometry_msgs.Vector3;
    value : float;
    label : Z }.
Record BoundingBoxArray := mkBoundingBoxArray
  { array_header : std_msgs.Header; boxes : list BoundingBox }.
End jsk_recognition_msgs.

Module autoware_msgs.
Record DetectedObject := mkDetectedObject
  { header : std_msgs.Header;
    id : Z;
    label : string;
    score : float;
    valid : bool;
    pose : geometry_msgs.Pose;
    dimensions : geometry_msgs.Vector3;
    pose_reliable : bool }.
Record DetectedObjectArray := mkDetectedObjectArray
  { array_header : std_msgs.Header; objects : list DetectedObject }.
End autoware_msgs.

(** [pcl::fromROSMsg] and [pcl::toROSMsg]: the points are carried over;
    the caller overwrites the header of the message it builds. *)
Definition fromROSMsg (m : sensor_msgs.PointCloud2) : pcl.PointCloud :=
  sensor_msgs.data m.

Definition toROSMsg (c : pcl.PointCloud) : sensor_msgs.PointCloud2 :=
  sensor_msgs.mkPointCloud2 std_msgs.empty c.

(** ** The dynamic-reconfigure snapshot

    [obstacle_detector_Config] is generated from the package's [.cfg]
    file; dynamic_reconfigure knows [bool], [int] and [double]
    parameters, so the real-valued members are doubles. *)

Record obstacle_detector_Config := mkConfig
  { use_pca_box : bool;
    use_tracking : bool;
    voxel_grid_size : float;
    roi_max_x : float; roi_max_y : float; roi_max_z : float;
    roi_min_x : float; roi_min_y : float; roi_min_z : float;
    ground_threshold : float;
    cluster_threshold : float;
    cluster_max_size : Z;
    cluster_min_size : Z;
    displacement_threshold : float;
    iou_threshold : float }.

(** The namespace-scope parameters of the node. *)
Record Params := mkParams
  { USE_PCA_BOX : bool;
    USE_TRACKING : bool;
    VOXEL_GRID_SIZE : float;
    ROI_MAX_POINT : Vector4f;
    ROI_MIN_POINT : Vector4f;
    GROUND_THRESH : float;
    CLUSTER_THRESH : float;
    CLUSTER_MAX_SIZE : Z;
    CLUSTER_MIN_SIZE : Z;
    DISPLACEMENT_THRESH : float;
    IOU_THRESH : float }.

(** [dynamicParamCallback]: every parameter is overwritten by the
    snapshot's value; nothing of the old parameters survives, and
    [level] is not read. *)
Definition dynamicParamCallback
  (config : obstacle_detector_Config) (level : Z) (_ : Params) : Params :=
  {| USE_PCA_BOX := use_pca_box config;
     USE_TRACKING := use_tracking config;
     VOXEL_GRID_SIZE := float_of_double (voxel_grid_size config);
     ROI_MAX_POINT :=
       mkVector4f (float_of_double (roi_max_x config))
                  (float_of_double (roi_max_y config))
                  (float_of_double (roi_max_z config)) 1%float;
     ROI_MIN_POINT :=
       mkVector4f (float_of_double (roi_min_x config))
                  (float_of_double (roi_min_y config))
                  (float_of_double (roi_min_z config)) 1%float;
     GROUND_THRESH := float_of_double (ground_threshold config);
     CLUSTER_THRESH := float_of_double (cluster_threshold config);
     CLUSTER_MAX_SIZE := cluster_max_size config;
     CLUSTER_MIN_SIZE := cluster_min_size config;
     DISPLACEMENT_THRESH := float_of_double (displacement_threshold config);
     IOU_THRESH := float_of_double (iou_threshold config) |}.

(** ** The pipeline the node drives *)

(** Modelled from the spec: the class template [ObstacleDetector<PointT>]
    lives in [lidar_obstacle_detector/obstacle_detector.hpp], which is
    not among the sources.  Its six methods are taken as an interface,
    with the signatures of the call sites in the node: filtering
    (spec 4.1), [segmentPlane] returning (obstacle points, ground points)
    (4.2), [clustering] (4.3), the two box fitters (4.4), and the tracker
    (4.5), which reads the previous boxes and yields the current boxes
    after its in-place update. *)
Class ObstacleDetector := mkObstacleDetector
  { filterCloud : pcl.PointCloud -> float -> Vector4f -> Vector4f -> pcl.PointCloud;
    segmentPlane : pcl.PointCloud -> Z -> float -> pcl.PointCloud * pcl.PointCloud;
    clustering : pcl.PointCloud -> float -> Z -> Z -> list pcl.PointCloud;
    pcaBoundingBox : pcl.PointCloud -> Z -> Box;
    axisAlignedBoundingBox : pcl.PointCloud -> Z -> Box;
    obstacleTracking : list Box -> list Box -> float -> float -> list Box }.

(** ** Exceptions, trace and state *)

(** [tf2::TransformException] (and its subclasses, which the handler's
    parameter type also catches): the only exception of the node. *)
Record Exception := TransformException { what : string }.

(** What the node does, in the order it does it: log lines, calls into
    the pipeline and the tf2 buffer with their arguments, and the
    messages handed to the four publishers. *)
Inductive Event :=
| ROS_INFO (text : string)
| ROS_WARN (text : string)
| call_filterCloud (cloud : pcl.PointCloud) (res : float) (lo hi : Vector4f)
| call_segmentPlane (cloud : pcl.PointCloud) (max_iterations : Z) (thresh : float)
| call_clustering (cloud : pcl.PointCloud) (tol : float) (min_size max_size : Z)
| call_pcaBoundingBox (cluster : pcl.PointCloud) (i : Z)
| call_axisAlignedBoundingBox (cluster : pcl.PointCloud) (i : Z)
| call_obstacleTracking (prev curr : list Box) (disp iou : float)
| call_lookupTransform (target source : string)
| pub_cloud_ground (msg : sensor_msgs.PointCloud2)
| pub_cloud_clusters (msg : sensor_msgs.PointCloud2)
| pub_jsk_bboxes (msg : jsk_recognition_msgs.BoundingBoxArray)
| pub_autoware_objects (msg : autoware_msgs.DetectedObjectArray).

(** The members of [ObstacleDetectorNode] that hold data. *)
Record Node := mkNode
  { obstacle_id_ : Z;
    bbox_target_frame_ : string;
    prev_boxes_ : list Box;
    curr_boxes_ : list Box }.

(** The tf2 buffer as the callback sees it: the latest transform from a
    source frame to a target frame, or the exception the lookup throws. *)
Definition Buffer := string -> string -> geometry_msgs.TransformStamped + Exception.

Record World := mkWorld
  { params : Params;
    node : Node;
    tf2_buffer : Buffer;
    trace : list Event }.

Definition with_params (w : World) (p : Params) : World :=
  mkWorld p (node w) (tf2_buffer w) (trace w).

Definition with_node (w : World) (n : Node) : World :=
  mkWorld (params w) n (tf2_buffer w) (trace w).

Definition with_buffer (w : World) (b : Buffer) : World :=
  mkWorld (params w) (node w) b (trace w).

Definition with_trace (w : World) (t : list Event) : World :=
  mkWorld (params w) (node w) (tf2_buffer w) t.

(** ** The monad: state, trace and exceptions *)

Inductive Result (A : Type) :=
| Normal (a : A)
| Thrown (e : Exception).
Arguments Normal {A} a.
Arguments Thrown {A} e.

Definition M (A : Type) := World -> Result A * World.

Definition ret {A} (a : A) : M A := fun w => (Normal a, w).

Definition bind {A B} (m : M A) (k : A -> M B) : M B :=
  fun w =>
    match m w with
    | (Normal a, w') => k a w'
    | (Thrown e, w') => (Thrown e, w')
    end.

Declare Scope node_scope.
Delimit Scope node_scope with node.
Notation "x <- m ; k" := (bind m (fun x => k))
  (at level 61, m at next level, right associativity) : node_scope.
Notation "m ;; k" := (bind m (fun _ => k))
  (at level 61, right associativity) : node_scope.
Open Scope node_scope.

Definition throw {A} (e : Exception) : M A := fun w => (Thrown e, w).

(** [try { m } catch (tf2::TransformException& ex) { h ex }] *)
Definition try_catch {A} (m : M A) (h : Exception -> M A) : M A :=
  fun w =>
    match m w with
    | (Normal a, w') => (Normal a, w')
    | (Thrown e, w') => h e w'
    end.

Definition get_params : M Params := fun w => (Normal (params w), w).
Definition get_node : M Node := fun w => (Normal (node w), w).
Definition put_node (n : Node) : M unit := fun w => (Normal tt, with_node w n).
Definition emit (e : Event) : M unit :=
  fun w => (Normal tt, with_trace w (trace w ++ [e])).

(** A range-based [for] over a vector that the body does not resize. *)
Fixpoint for_each {A} (l : list A) (body : A -> M unit) : M unit :=
  match l with
  | [] => ret tt
  | a :: l' => body a ;; for_each l' body
  end.

(** [tf2_buffer.lookupTransform(target, source, ros::Time(0))] *)
Definition lookupTransform (target source : string)
  : M geometry_msgs.TransformStamped :=
  emit (call_lookupTransform target source) ;;
  fun w =>
    match tf2_buffer w target source with
    | inl t => ret t w
    | inr e => throw e w
    end.

(** [++x] on a [size_t]. *)
Definition pre_increment (x : Z) : Z := (x + 1) mod (SIZE_MAX + 1).

(** The value [obstacle_id_] is given after a box has been made:
    [(obstacle_id_ < SIZE_MAX) ? ++obstacle_id_ : 0]. *)
Definition next_obstacle_id (i : Z) : Z :=
  if i <? SIZE_MAX then pre_increment i else 0.

Definition set_obstacle_id_ (n : Node) (i : Z) : Node :=
  mkNode i (bbox_target_frame_ n) (prev_boxes_ n) (curr_boxes_ n).

Definition set_curr_boxes_ (n : Node) (l : list Box) : Node :=
  mkNode (obstacle_id_ n) (bbox_target_frame_ n) (prev_boxes_ n) l.

(** [prev_boxes_.swap(curr_boxes_)] *)
Definition swap_boxes (n : Node) : Node :=
  mkNode (obstacle_id_ n) (bbox_target_frame_ n) (curr_boxes_ n) (prev_boxes_ n).

Definition set_header (m : sensor_msgs.PointCloud2) (h : std_msgs.Header)
  : sensor_msgs.PointCloud2 :=
  sensor_msgs.mkPointCloud2 h (sensor_msgs.data m).

(** The pose the second loop of the callback builds from a box. *)
Definition pose_of_box (box : Box) : geometry_msgs.Pose :=
  {| geometry_msgs.position :=
       {| geometry_msgs.x := v3_0 (position box);
          geometry_msgs.y := v3_1 (position box);
          geometry_msgs.z := v3_2 (position box) |};
     geometry_msgs.orientation :=
       {| geometry_msgs.qx := q_x (quaternion box);
          geometry_msgs.qy := q_y (quaternion box);
          geometry_msgs.qz := q_z (quaternion box);
          geometry_msgs.qw := q_w (quaternion box) |} |}.

(** [transformJskBbox]; the member [bbox_target_frame_] it reads is its
    first argument.  [label] is an unsigned 32-bit field. *)
Definition transformJskBbox (bbox_target_frame_ : string)
  (box : Box) (pose_transformed : geometry_msgs.Pose)
  : jsk_recognition_msgs.BoundingBox :=
  {| jsk_recognition_msgs.header :=
       std_msgs.set_frame_id std_msgs.empty bbox_target_frame_;
     jsk_recognition_msgs.pose := pose_transformed;
     jsk_recognition_msgs.dimensions :=
       {| geometry_msgs.vx := v3_0 (dimension box);
          geometry_msgs.vy := v3_1 (dimension box);
          geometry_msgs.vz := v3_2 (dimension box) |};
     jsk_recognition_msgs.value := 1%float;
     jsk_recognition_msgs.label := uint32_of (id box) |}.

(** [transformAutowareObject]; [id] is an unsigned 32-bit field. *)
Definition transformAutowareObject (bbox_target_frame_ : string)
  (box : Box) (pose_transformed : geometry_msgs.Pose)
  : autoware_msgs.DetectedObject :=
  {| autoware_msgs.header :=
       std_msgs.set_frame_id std_msgs.empty bbox_target_frame_;
     autoware_msgs.id := uint32_of (id box);
     autoware_msgs.label := "unknown"%string;
     autoware_msgs.score := 1%float;
     autoware_msgs.pose := pose_transformed;
     autoware_msgs.pose_reliable := true;
     autoware_msgs.dimensions :=
       {| geometry_msgs.vx := v3_0 (dimension box);
          geometry_msgs.vy := v3_1 (dimension box);
          geometry_msgs.vz := v3_2 (dimension box) |};
     autoware_msgs.valid := true |}.

(** [publishClouds]: [second] of the pair goes out as the ground cloud,
    [first] as the obstacle cloud, in this order. *)
Definition publishClouds
  (segmented_clouds : pcl.PointCloud * pcl.PointCloud) (header : std_msgs.Header)
  : M unit :=
  let ground_cloud := set_header (toROSMsg (snd segmented_clouds)) header in
  let obstacle_cloud := set_header (toROSMsg (fst segmented_clouds)) header in
  emit (pub_cloud_ground ground_cloud) ;;
  emit (pub_cloud_clusters obstacle_cloud).

Section ObstacleDetectorNode.

Context {obstacle_detector : ObstacleDetector}.

(** [tf2::doTransform] on poses, a function of the tf2 library. *)
Variable doTransform :
  geometry_msgs.Pose -> geometry_msgs.TransformStamped -> geometry_msgs.Pose.

(** Calls into the pipeline, each recorded in the trace. *)
Definition do_filterCloud (cloud : pcl.PointCloud) (res : float) (lo hi : Vector4f)
  : M pcl.PointCloud :=
  emit (call_filterCloud cloud res lo hi) ;;
  ret (filterCloud cloud res lo hi).

Definition do_segmentPlane (cloud : pcl.PointCloud) (max_iterations : Z) (thresh : float)
  : M (pcl.PointCloud * pcl.PointCloud) :=
  emit (call_segmentPlane cloud max_iterations thresh) ;;
  ret (segmentPlane cloud max_iterations thresh).

Definition do_clustering (cloud : pcl.PointCloud) (tol : float) (min_size max_size : Z)
  : M (list pcl.PointCloud) :=
  emit (call_clustering cloud tol min_size max_size) ;;
  ret (clustering cloud tol min_size max_size).

Definition do_pcaBoundingBox (cluster : pcl.PointCloud) (i : Z) : M Box :=
  emit (call_pcaBoundingBox cluster i) ;;
  ret (pcaBoundingBox cluster i).

Definition do_axisAlignedBoundingBox (cluster : pcl.PointCloud) (i : Z) : M Box :=
  emit (call_axisAlignedBoundingBox cluster i) ;;
  ret (axisAlignedBoundingBox cluster i).

(** [obstacleTracking(prev_boxes_, curr_boxes_, ...)]: [curr_boxes_] is
    passed by reference and holds the tracker's result afterwards. *)
Definition do_obstacleTracking (disp iou : float) : M unit :=
  n <- get_node ;
  emit (call_obstacleTracking (prev_boxes_ n) (curr_boxes_ n) disp iou) ;;
  put_node (set_curr_boxes_ n
              (obstacleTracking (prev_boxes_ n) (curr_boxes_ n) disp iou)).

(** The body of the first loop of the callback. *)
Definition make_box (cluster : pcl.PointCloud) : M unit :=
  p <- get_params ;
  n <- get_node ;
  box <- (if USE_PCA_BOX p
          then do_pcaBoundingBox cluster (obstacle_id_ n)
          else do_axisAlignedBoundingBox cluster (obstacle_id_ n)) ;
  n <- get_node ;
  put_node (set_obstacle_id_ n (next_obstacle_id (obstacle_id_ n))) ;;
  n <- get_node ;
  put_node (set_curr_boxes_ n (curr_boxes_ n ++ [box])).

(** The callback from the successful lookup on. *)
Definition emit_boxes (header : std_msgs.Header)
  (cloudClusters : list pcl.PointCloud)
  (transform_stamped : geometry_msgs.TransformStamped) : M unit :=
  n <- get_node ;
  let out_header := std_msgs.set_frame_id header (bbox_target_frame_ n) in
  for_each cloudClusters make_box ;;
  p <- get_params ;
  (if USE_TRACKING p
   then do_obstacleTracking (DISPLACEMENT_THRESH p) (IOU_THRESH p)
   else ret tt) ;;
  n <- get_node ;
  let transformed box := doTransform (pose_of_box box) transform_stamped in
  let jsk_bboxes :=
    jsk_recognition_msgs.mkBoundingBoxArray out_header
      (map (fun box => transformJskBbox (bbox_target_frame_ n) box (transformed box))
           (curr_boxes_ n)) in
  let autoware_objects :=
    autoware_msgs.mkDetectedObjectArray out_header
      (map (fun box => transformAutowareObject (bbox_target_frame_ n) box (transformed box))
           (curr_boxes_ n)) in
  emit (pub_jsk_bboxes jsk_bboxes) ;;
  emit (pub_autoware_objects autoware_objects) ;;
  n <- get_node ;
  put_node (swap_boxes n) ;;
  n <- get_node ;
  put_node (set_curr_boxes_ n []).

(** [lidarPointsCallback].  The handler of the [try] block returns from
    the callback: the lookup yields [None] there and nothing follows. *)
Definition lidarPointsCallback (lidar_points : sensor_msgs.PointCloud2) : M unit :=
  emit (ROS_INFO "lidar points recieved"%string) ;;
  let raw_cloud := fromROSMsg lidar_points in
  p <- get_params ;
  filtered_cloud <-
    do_filterCloud raw_cloud (VOXEL_GRID_SIZE p) (ROI_MIN_POINT p) (ROI_MAX_POINT p) ;
  p <- get_params ;
  segmented_clouds <- do_segmentPlane filtered_cloud 30 (GROUND_THRESH p) ;
  p <- get_params ;
  cloudClusters <-
    do_clustering (fst segmented_clouds)
      (CLUSTER_THRESH p) (CLUSTER_MIN_SIZE p) (CLUSTER_MAX_SIZE p) ;
  publishClouds segmented_clouds (sensor_msgs.header lidar_points) ;;
  n <- get_node ;
  looked_up <-
    try_catch
      (t <- lookupTransform (bbox_target_frame_ n)
              (std_msgs.frame_id (sensor_msgs.header lidar_points)) ;
       ret (Some t))
      (fun ex => emit (ROS_WARN (what ex)) ;; ret None) ;
  match looked_up with
  | None => ret tt
  | Some transform_stamped =>
      emit_boxes (sensor_msgs.header lidar_points) cloudClusters transform_stamped
  end.

End ObstacleDetectorNode.

(** ** Running the node *)

Section Runs.

Context {obstacle_detector : ObstacleDetector}.

Variable doTransform :
  geometry_msgs.Pose -> geometry_msgs.TransformStamped -> geometry_msgs.Pose.

(** The world a callback leaves behind. *)
Definition after_frame (lidar_points : sensor_msgs.PointCloud2) (w : World) : World :=
  snd (lidarPointsCallback doTransform lidar_points w).

(** The node after its constructor: the counter at 0, both box vectors
    empty, the target frame read from the parameter server, and the
    parameters as the first run of [dynamicParamCallback] (made by
    [server.setCallback]) left them. *)
Definition constructed (bbox_target_frame : string)
  (config : obstacle_detector_Config) (level : Z) (old : Params) (buffer : Buffer)
  : World :=
  {| params := dynamicParamCallback config level old;
     node := mkNode 0 bbox_target_frame [] [];
     tf2_buffer := buffer;
     trace := [] |}.

(** Between two callbacks the world changes in three ways: a frame is
    processed, a configuration snapshot arrives, or the transform
    listener refills the buffer. *)
Inductive step : World -> World -> Prop :=
| step_frame w lidar_points :
    step w (after_frame lidar_points w)
| step_config w config level :
    step w (with_params w (dynamicParamCallback config level (params w)))
| step_buffer w buffer :
    step w (with_buffer w buffer).

Inductive reachable : World -> Prop :=
| reachable_constructed frame config level old buffer :
    reachable (constructed frame config level old buffer)
| reachable_step w w' :
    reachable w -> step w w' -> reachable w'.

(** *** What one frame computes, stage by stage *)

Definition filtered_of (p : Params) (lidar_points : sensor_msgs.PointCloud2)
  : pcl.PointCloud :=
  filterCloud (fromROSMsg lidar_points)
    (VOXEL_GRID_SIZE p) (ROI_MIN_POINT p) (ROI_MAX_POINT p).

Definition segmented_of (p : Params) (lidar_points : sensor_msgs.PointCloud2)
  : pcl.PointCloud * pcl.PointCloud :=
  segmentPlane (filtered_of p lidar_points) 30 (GROUND_THRESH p).

Definition clusters_of (p : Params) (lidar_points : sensor_msgs.PointCloud2)
  : list pcl.PointCloud :=
  clustering (fst (segmented_of p lidar_points))
    (CLUSTER_THRESH p) (CLUSTER_MIN_SIZE p) (CLUSTER_MAX_SIZE p).

(** The fitter the flag selects. *)
Definition fit (p : Params) (cluster : pcl.PointCloud) (i : Z) : Box :=
  if USE_PCA_BOX p then pcaBoundingBox cluster i else axisAlignedBoundingBox cluster i.

Definition fit_call (p : Params) (cluster : pcl.PointCloud) (i : Z) : Event :=
  if USE_PCA_BOX p
  then call_pcaBoundingBox cluster i
  else call_axisAlignedBoundingBox cluster i.

(** The counter after [n] boxes. *)
Fixpoint counter_after (n : nat) (i : Z) : Z :=
  match n with
  | O => i
  | S n' => counter_after n' (next_obstacle_id i)
  end.

(** One box per cluster, in order, each made with the counter value of
    its turn. *)
Fixpoint fitted (p : Params) (clusters : list pcl.PointCloud) (i : Z) : list Box :=
  match clusters with
  | [] => []
  | c :: cs => fit p c i :: fitted p cs (next_obstacle_id i)
  end.

Fixpoint fit_calls (p : Params) (clusters : list pcl.PointCloud) (i : Z) : list Event :=
  match clusters with
  | [] => []
  | c :: cs => fit_call p c i :: fit_calls p cs (next_obstacle_id i)
  end.

(** The current boxes once the tracking step is over. *)
Definition tracked (p : Params) (prev curr : list Box) : list Box :=
  if USE_TRACKING p
  then obstacleTracking prev curr (DISPLACEMENT_THRESH p) (IOU_THRESH p)
  else curr.

Definition tracking_calls (p : Params) (prev curr : list Box) : list Event :=
  if USE_TRACKING p
  then [call_obstacleTracking prev curr (DISPLACEMENT_THRESH p) (IOU_THRESH p)]
  else [].

(** What a frame has put on the trace when the lookup is made. *)
Definition before_lookup (w : World) (lidar_points : sensor_msgs.PointCloud2)
  : list Event :=
  let p := params w in
  let h := sensor_msgs.header lidar_points in
  [ ROS_INFO "lidar points recieved"%string;
    call_filterCloud (fromROSMsg lidar_points)
      (VOXEL_GRID_SIZE p) (ROI_MIN_POINT p) (ROI_MAX_POINT p);
    call_segmentPlane (filtered_of p lidar_points) 30 (GROUND_THRESH p);
    call_clustering (fst (segmented_of p lidar_points))
      (CLUSTER_THRESH p) (CLUSTER_MIN_SIZE p) (CLUSTER_MAX_SIZE p);
    pub_cloud_ground (sensor_msgs.mkPointCloud2 h (snd (segmented_of p lidar_points)));
    pub_cloud_clusters (sensor_msgs.mkPointCloud2 h (fst (segmented_of p lidar_points)));
    call_lookupTransform (bbox_target_frame_ (node w)) (std_msgs.frame_id h) ].

(** The boxes of a frame before and after the tracking step. *)
Definition made_boxes (w : World) (lidar_points : sensor_msgs.PointCloud2) : list Box :=
  curr_boxes_ (node w)
  ++ fitted (params w) (clusters_of (params w) lidar_points) (obstacle_id_ (node w)).

Definition frame_boxes (w : World) (lidar_points : sensor_msgs.PointCloud2) : list Box :=
  tracked (params w) (prev_boxes_ (node w)) (made_boxes w lidar_points).

(** The two arrays a frame publishes for a list of boxes. *)
Definition jsk_array (w : World) (lidar_points : sensor_msgs.PointCloud2)
  (t : geometry_msgs.TransformStamped) (bs : list Box)
  : jsk_recognition_msgs.BoundingBoxArray :=
  jsk_recognition_msgs.mkBoundingBoxArray
    (std_msgs.set_frame_id (sensor_msgs.header lidar_points) (bbox_target_frame_ (node w)))
    (map (fun box => transformJskBbox (bbox_target_frame_ (node w)) box
                       (doTransform (pose_of_box box) t)) bs).

Definition autoware_array (w : World) (lidar_points : sensor_msgs.PointCloud2)
  (t : geometry_msgs.TransformStamped) (bs : list Box)
  : autoware_msgs.DetectedObjectArray :=
  autoware_msgs.mkDetectedObjectArray
    (std_msgs.set_frame_id (sensor_msgs.header lidar_points) (bbox_target_frame_ (node w)))
    (map (fun box => transformAutowareObject (bbox_target_frame_ (node w)) box
                       (doTransform (pose_of_box box) t)) bs).

End Runs.

(** The events a frame added to the trace. *)
Definition added (w w' : World) (t : list Event) : Prop :=
  trace w' = trace w ++ t.

Definition is_box_publication (e : Event) : bool :=
  match e with
  | pub_jsk_bboxes _ | pub_autoware_objects _ => true
  | _ => false
  end.

Definition is_tracking_call (e : Event) : bool :=
  match e with
  | call_obstacleTracking _ _ _ _ => true
  | _ => false
  end.

Definition segmentPlane_budget (e : Event) : option Z :=
  match e with
  | call_segmentPlane _ max_iterations _ => Some max_iterations
  | _ => None
  end.

(** ** What the spec asks of the configuration (section 6) *)

Definition valid_config (c : obstacle_detector_Config) : bool :=
  (0 <? voxel_grid_size c)%float
  && (0 <? ground_threshold c)%float
  && (0 <? cluster_threshold c)%float
  && (cluster_min_size c <=? cluster_max_size c)
  && (0 <=? displacement_threshold c)%float
  && (0 <=? iou_threshold c)%float
  && (iou_threshold c <=? 1)%float.

(** The counter holds a [size_t] value. *)
Definition counter_in_range (w : World) : Prop :=
  0 <= obstacle_id_ (node w) <= SIZE_MAX.

(** ** What the spec asks of the fitters and the tracker *)

Definition distinct_ids (bs : list Box) : Prop := NoDup (map id bs).

(** A list with the position of each element. *)
Definition indexed {A} (l : list A) : list (nat * A) :=
  combine (seq 0 (List.length l)) l.

(** A matching pairs positions in the previous boxes with positions in
    the current boxes; no previous and no current box is used twice. *)
Definition one_to_one (m : list (nat * nat)) (n_prev n_curr : nat) : Prop :=
  NoDup (map fst m) /\ NoDup (map snd m)
  /\ Forall (fun ab => (fst ab < n_prev)%nat /\ (snd ab < n_curr)%nat) m.

(** The current boxes after a matching has been applied: a matched box
    takes the id of its previous box, the others are left alone. *)
Definition reassigned (prev curr : list Box) (m : list (nat * nat)) : list Box :=
  map (fun jc =>
         match find (fun ab => Nat.eqb (snd ab) (fst jc)) m with
         | Some ab => set_id (snd jc) (id (nth (fst ab) prev (snd jc)))
         | None => snd jc
         end)
      (indexed curr).

(** Modelled from the spec: the result of the tracker (4.5, steps 3 to
    5), whose code is not among the sources.  Matched current boxes get
    the id of the previous box they were matched with, every box being
    matched at most once; unmatched current boxes keep their id. *)
Definition tracks (prev curr curr' : list Box) : Prop :=
  exists m, one_to_one m (List.length prev) (List.length curr)
            /\ curr' = reassigned prev curr m.

(** Modelled from the spec: both fitters assign the supplied provisional
    id (4.4), and the tracker reassigns ids one to one (4.5). *)
Class DetectorSpec (D : ObstacleDetector) : Prop :=
  { pca_assigns_id : forall cluster i, id (pcaBoundingBox cluster i) = i;
    aabb_assigns_id : forall cluster i, id (axisAlignedBoundingBox cluster i) = i;
    tracking_reassigns :
      forall prev curr disp iou, tracks prev curr (obstacleTracking prev curr disp iou) }.

(** *** The greedy tracker of the spec, executable *)

Definition sq (a : float) : float := (a * a)%float.

(** Euclidean distance between the centroids. *)
Definition displacement (p c : Box) : float :=
  PrimFloat.sqrt
    (sq (v3_0 (position c) - v3_0 (position p))
     + sq (v3_1 (position c) - v3_1 (position p))
     + sq (v3_2 (position c) - v3_2 (position p)))%float.

Definition fmin (a b : float) : float := if (b <? a)%float then b else a.
Definition fmax (a b : float) : float := if (a <? b)%float then b else a.

Definition overlap (c1 d1 c2 d2 : float) : float :=
  let lo := fmax (c1 - d1 / 2) (c2 - d2 / 2)%float in
  let hi := fmin (c1 + d1 / 2) (c2 + d2 / 2)%float in
  if (lo <? hi)%float then (hi - lo)%float else 0%float.

Definition volume (b : Box) : float :=
  (v3_0 (dimension b) * v3_1 (dimension b) * v3_2 (dimension b))%float.

(** Intersection over union, both boxes taken as axis-aligned. *)
Definition box_iou (p c : Box) : float :=
  let inter :=
    (overlap (v3_0 (position p)) (v3_0 (dimension p)) (v3_0 (position c)) (v3_0 (dimension c))
     * overlap (v3_1 (position p)) (v3_1 (dimension p)) (v3_1 (position c)) (v3_1 (dimension c))
     * overlap (v3_2 (position p)) (v3_2 (dimension p)) (v3_2 (position c)) (v3_2 (dimension c)))%float in
  let union := (volume p + volume c - inter)%float in
  if (0 <? union)%float then (inter / union)%float else 0%float.

Definition eligible (disp iou : float) (p c : Box) : bool :=
  (displacement p c <=? disp)%float || (iou <=? box_iou p c)%float.

Definition pair_eligible (prev curr : list Box) (disp iou : float) (ab : nat * nat) : bool :=
  match nth_error prev (fst ab), nth_error curr (snd ab) with
  | Some p, Some c => eligible disp iou p c
  | _, _ => false
  end.

Definition pair_displacement (prev curr : list Box) (ab : nat * nat) : float :=
  match nth_error prev (fst ab), nth_error curr (snd ab) with
  | Some p, Some c => displacement p c
  | _, _ => infinity
  end.

Definition candidates (prev curr : list Box) (disp iou : float) : list (nat * nat) :=
  filter (pair_eligible prev curr disp iou)
    (list_prod (seq 0 (List.length prev)) (seq 0 (List.length curr))).

(** The pair of lowest score; among equals, the first of the list. *)
Fixpoint best (score : nat * nat -> float) (l : list (nat * nat)) : option (nat * nat) :=
  match l with
  | [] => None
  | ab :: l' =>
      match best score l' with
      | Some cd => if (score cd <? score ab)%float then Some cd else Some ab
      | None => Some ab
      end
  end.

Definition apart (ab cd : nat * nat) : bool :=
  negb (Nat.eqb (fst cd) (fst ab)) && negb (Nat.eqb (snd cd) (snd ab)).

(** Pick the best remaining pair, drop every pair that shares a box with
    it, repeat; [fuel] bounds the number of rounds. *)
Fixpoint greedy (fuel : nat) (score : nat * nat -> float) (l : list (nat * nat))
  : list (nat * nat) :=
  match fuel with
  | O => []
  | S fuel' =>
      match best score l with
      | Some ab => ab :: greedy fuel' score (filter (apart ab) l)
      | None => []
      end
  end.

(** Modelled from the spec: the tracker of 4.5 with lowest displacement
    as the score of a pair. *)
Definition greedy_tracking (prev curr : list Box) (disp iou : float) : list Box :=
  let l := candidates prev curr disp iou in
  reassigned prev curr (greedy (List.length l) (pair_displacement prev curr) l).

(** ** A small detector to run the node on concrete frames

    Nothing is filtered out, every point is an obstacle point and a
    cluster of its own, both fitters return the axis-aligned box of the
    cluster, and the tracker is the greedy one above. *)

Definition bounds (f : pcl.PointXYZ -> float) (cluster : pcl.PointCloud) : float * float :=
  match cluster with
  | [] => (0%float, 0%float)
  | q :: qs =>
      fold_left (fun lh r => (fmin (fst lh) (f r), fmax (snd lh) (f r))) qs (f q, f q)
  end.

Definition middle (lh : float * float) : float := ((fst lh + snd lh) / 2)%float.
Definition extent (lh : float * float) : float := (snd lh - fst lh)%float.

Definition bounding_box (cluster : pcl.PointCloud) (i : Z) : Box :=
  {| id := i;
     position :=
       mkVector3f (middle (bounds pcl.x cluster)) (middle (bounds pcl.y cluster))
                  (middle (bounds pcl.z cluster));
     dimension :=
       mkVector3f (extent (bounds pcl.x cluster)) (extent (bounds pcl.y cluster))
                  (extent (bounds pcl.z cluster));
     quaternion := mkQuaternionf 1 0 0 0 |}.

Definition test_detector : ObstacleDetector :=
  {| filterCloud := fun cloud _ _ _ => cloud;
     segmentPlane := fun cloud _ _ => (cloud, []);
     clustering := fun cloud _ _ _ => map (fun q => [q]) cloud;
     pcaBoundingBox := bounding_box;
     axisAlignedBoundingBox := bounding_box;
     obstacleTracking := greedy_tracking |}.

(** A transform that only translates. *)
Definition translate (pose : geometry_msgs.Pose) (t : geometry_msgs.TransformStamped)
  : geometry_msgs.Pose :=
  {| geometry_msgs.position :=
       {| geometry_msgs.x :=
            (geometry_msgs.x (geometry_msgs.position pose)
             + geometry_msgs.vx (geometry_msgs.translation t))%float;
          geometry_msgs.y :=
            (geometry_msgs.y (geometry_msgs.position pose)
             + geometry_msgs.vy (geometry_msgs.translation t))%float;
          geometry_msgs.z :=
            (geometry_msgs.z (geometry_msgs.position pose)
             + geometry_msgs.vz (geometry_msgs.translation t))%float |};
     geometry_msgs.orientation := geometry_msgs.orientation pose |}.

Definition test_config : obstacle_detector_Config :=
  {| use_pca_box := false;
     use_tracking := true;
     voxel_grid_size := 0.5;
     roi_max_x := 50; roi_max_y := 50; roi_max_z := 3;
     roi_min_x := -50; roi_min_y := -50; roi_min_z := -3;
     ground_threshold := 0.25;
     cluster_threshold := 0.5;
     cluster_max_size := 5000;
     cluster_min_size := 10;
     displacement_threshold := 0.5;
     iou_threshold := 0.5 |}.

Definition zero_params : Params :=
  mkParams false false 0 (mkVector4f 0 0 0 0) (mkVector4f 0 0 0 0) 0 0 0 0 0 0.

Definition base_link_transform : geometry_msgs.TransformStamped :=
  {| geometry_msgs.header := std_msgs.mkHeader 0 0 "base_link"%string;
     geometry_msgs.child_frame_id := "lidar"%string;
     geometry_msgs.translation := geometry_msgs.mkVector3 1 0 2;
     geometry_msgs.rotation := geometry_msgs.mkQuaternion 0 0 0 1 |}.

Definition buffer_ready : Buffer := fun _ _ => inl base_link_transform.

Definition buffer_empty : Buffer :=
  fun _ _ => inr (TransformException "frame does not exist"%string).

Definition frame_of (points : pcl.PointCloud) : sensor_msgs.PointCloud2 :=
  sensor_msgs.mkPointCloud2 (std_msgs.mkHeader 1 100 "lidar"%string) points.

Definition started (config : obstacle_detector_Config) (buffer : Buffer) : World :=
  constructed "base_link"%string config 0 zero_params buffer.

Definition origin : pcl.PointXYZ := pcl.mkPointXYZ 0 0 0.
Definition far_away : pcl.PointXYZ := pcl.mkPointXYZ 100 0 0.

(** The [max_iterations] arguments of the segmentation calls of a trace. *)
Definition budgets (t : list Event) : list Z :=
  flat_map (fun e => match segmentPlane_budget e with
                     | Some k => [k]
                     | None => []
                     end) t.

(** A snapshot the spec calls invalid: thresholds that are not positive,
    and a minimum cluster size above the maximum. *)
Definition bad_config : obstacle_detector_Config :=
  {| use_pca_box := false;
     use_tracking := true;
     voxel_grid_size := 0;
     roi_max_x := 50; roi_max_y := 50; roi_max_z := 3;
     roi_min_x := -50; roi_min_y := -50; roi_min_z := -3;
     ground_threshold := -1;
     cluster_threshold := 0;
     cluster_max_size := 5;
     cluster_min_size := 10;
     displacement_threshold := 0.5;
     iou_threshold := 0.5 |}.

Definition untracked_config : obstacle_detector_Config :=
  {| use_pca_box := true;
     use_tracking := false;
     voxel_grid_size := 0.5;
     roi_max_x := 50; roi_max_y := 50; roi_max_z := 3;
     roi_min_x := -50; roi_min_y := -50; roi_min_z := -3;
     ground_threshold := 0.25;
     cluster_threshold := 0.5;
     cluster_max_size := 5000;
     cluster_min_size := 10;
     displacement_threshold := 0.5;
     iou_threshold := 0.5 |}.

(** ** Runs in which the counter has not been reset *)

Section Unwrapped.

Context {obstacle_detector : ObstacleDetector}.

Variable doTransform :
  geometry_msgs.Pose -> geometry_msgs.TransformStamped -> geometry_msgs.Pose.

(** The number of boxes a frame makes: one per cluster when the lookup
    yields a transform, none when it throws. *)
Definition boxes_due (w : World) (lidar_points : sensor_msgs.PointCloud2) : nat :=
  match tf2_buffer w (bbox_target_frame_ (node w))
          (std_msgs.frame_id (sensor_msgs.header lidar_points)) with
  | inl _ => List.length (clusters_of (params w) lidar_points)
  | inr _ => 0%nat
  end.

(** The frame does not take the counter past [SIZE_MAX]. *)
Definition fits (w : World) (lidar_points : sensor_msgs.PointCloud2) : Prop :=
  obstacle_id_ (node w) + Z.of_nat (boxes_due w lidar_points) <= SIZE_MAX.

(** The worlds reached from the constructor by frames that fit. *)
Inductive unwrapped : World -> Prop :=
| unwrapped_constructed frame config level old buffer :
    unwrapped (constructed frame config level old buffer)
| unwrapped_frame w lidar_points :
    unwrapped w -> fits w lidar_points ->
    unwrapped (after_frame doTransform lidar_points w)
| unwrapped_config w config level :
    unwrapped w ->
    unwrapped (with_params w (dynamicParamCallback config level (params w)))
| unwrapped_buffer w buffer :
    unwrapped w -> unwrapped (with_buffer w buffer).

End Unwrapped.

(** Between frames, while the counter has not been reset: no current
    boxes, previous boxes with distinct ids, all below the counter. *)
Definition tidy (w : World) : Prop :=
  curr_boxes_ (node w) = []
  /\ distinct_ids (prev_boxes_ (node w))
  /\ Forall (fun b => 0 <= id b < obstacle_id_ (node w)) (prev_boxes_ (node w))
  /\ counter_in_range w.

(** A world in which the obstacle at the origin is tracked under the id
    0 while the counter is at [i]. *)
Definition settled (w : World) (i : Z) : Prop :=
  params w = params (started test_config buffer_ready)
  /\ tf2_buffer w = buffer_ready
  /\ node w = mkNode i "base_link" [bounding_box [origin] 0] [].

(** The same one-point frame, 2^64 times over. *)
Definition long_run : World :=
  Nat.iter (Z.to_nat (2 ^ 64))
    (after_frame (obstacle_detector := test_detector) translate (frame_of [origin]))
    (started test_config buffer_ready).

(** ** Reading a trace *)

(** The stage of the node an event comes from. *)
Inductive Stage :=
| logged_info | logged_warning
| filtering | segmentation | clustering_stage | fitting | tracking | lookup
| ground_publication | obstacle_publication | jsk_publication | autoware_publication.

Definition stage_of (e : Event) : Stage :=
  match e with
  | ROS_INFO _ => logged_info
  | ROS_WARN _ => logged_warning
  | call_filterCloud _ _ _ _ => filtering
  | call_segmentPlane _ _ _ => segmentation
  | call_clustering _ _ _ _ => clustering_stage
  | call_pcaBoundingBox _ _ | call_axisAlignedBoundingBox _ _ => fitting
  | call_obstacleTracking _ _ _ _ => tracking
  | call_lookupTransform _ _ => lookup
  | pub_cloud_ground _ => ground_publication
  | pub_cloud_clusters _ => obstacle_publication
  | pub_jsk_bboxes _ => jsk_publication
  | pub_autoware_objects _ => autoware_publication
  end.

Definition same_stage (s s' : Stage) : bool :=
  match s, s' with
  | logged_info, logged_info | logged_warning, logged_warning
  | filtering, filtering | segmentation, segmentation
  | clustering_stage, clustering_stage | fitting, fitting
  | tracking, tracking | lookup, lookup
  | ground_publication, ground_publication
  | obstacle_publication, obstacle_publication
  | jsk_publication, jsk_publication
  | autoware_publication, autoware_publication => true
  | _, _ => false
  end.

(** How many events of a trace come from a stage. *)
Definition count (s : Stage) (t : list Event) : nat :=
  List.length (filter (fun e => same_stage (stage_of e) s) t).

(** The ids the fitter calls of a trace were given, in order. *)
Definition fitter_ids (t : list Event) : list Z :=
  flat_map (fun e => match e with
                     | call_pcaBoundingBox _ i | call_axisAlignedBoundingBox _ i => [i]
                     | _ => []
                     end) t.

(** A published box array names the frame [f], and so does each of its
    entries; other events name no frame. *)
Definition framed (f : string) (e : Event) : Prop :=
  match e with
  | pub_jsk_bboxes m =>
      std_msgs.frame_id (jsk_recognition_msgs.array_header m) = f
      /\ Forall (fun b => std_msgs.frame_id (jsk_recognition_msgs.header b) = f)
           (jsk_recognition_msgs.boxes m)
  | pub_autoware_objects m =>
      std_msgs.frame_id (autoware_msgs.array_header m) = f
      /\ Forall (fun o => std_msgs.frame_id (autoware_msgs.header o) = f)
           (autoware_msgs.objects m)
  | _ => True
  end.

(** A bounding box and a detected object that describe the same box. *)
Definition same_box (b : jsk_recognition_msgs.BoundingBox)
  (o : autoware_msgs.DetectedObject) : Prop :=
  jsk_recognition_msgs.header b = autoware_msgs.header o
  /\ jsk_recognition_msgs.pose b = autoware_msgs.pose o
  /\ jsk_recognition_msgs.dimensions b = autoware_msgs.dimensions o
  /\ jsk_recognition_msgs.label b = autoware_msgs.id o.

(** A buffer that knows the lidar frame only, and a frame from elsewhere. *)
Definition buffer_lidar_only : Buffer :=
  fun target source =>
    if String.eqb source "lidar"
    then inl base_link_transform
    else inr (TransformException "unknown frame").

Definition radar_frame : sensor_msgs.PointCloud2 :=
  sensor_msgs.mkPointCloud2 (std_msgs.mkHeader 1 100 "radar") [far_away].

(** The constant fields of what is published: every detected object is
    marked valid with a reliable pose, labelled "unknown" with score 1.0,
    and every bounding box has the value 1.0. *)
Definition constant_fields (e : Event) : Prop :=
  match e with
  | pub_jsk_bboxes m =>
      Forall (fun b => jsk_recognition_msgs.value b = 1%float)
        (jsk_recognition_msgs.boxes m)
  | pub_autoware_objects m =>
      Forall (fun o => autoware_msgs.valid o = true
                       /\ autoware_msgs.pose_reliable o = true
                       /\ autoware_msgs.label o = "unknown"%string
                       /\ autoware_msgs.score o = 1%float)
        (autoware_msgs.objects m)
  | _ => True
  end.

(** A world of the run below in which the counter is at [i]. *)
Definition counting (w : World) (i : Z) : Prop :=
  params w = params (started untracked_config buffer_ready)
  /\ tf2_buffer w = buffer_ready
  /\ obstacle_id_ (node w) = i
  /\ bbox_target_frame_ (node w) = "base_link"%string
  /\ curr_boxes_ (node w) = [].

(** The same one-point frame, 2^32 times over, with tracking off. *)
Definition untracked_run : World :=
  Nat.iter (Z.to_nat (2 ^ 32))
    (after_frame (obstacle_detector := test_detector) translate (frame_of [origin]))
    (started untracked_config buffer_ready).

(** * Properties *)

(** ** How the callback runs *)

Section Execution.

Context {obstacle_detector : ObstacleDetector}.

Variable doTransform :
  geometry_msgs.Pose -> geometry_msgs.TransformStamped -> geometry_msgs.Pose.

(** Runs the monad's plumbing on a world given by its four parts. *)
Ltac run_node :=
  cbv beta iota zeta delta
    [bind ret emit throw try_catch get_params get_node put_node
     lookupTransform publishClouds
     do_filterCloud do_segmentPlane do_clustering
     do_pcaBoundingBox do_axisAlignedBoundingBox do_obstacleTracking
     with_trace with_node with_params with_buffer
     params node tf2_buffer trace
     set_obstacle_id_ set_curr_boxes_ swap_boxes set_header toROSMsg
     obstacle_id_ bbox_target_frame_ prev_boxes_ curr_boxes_
     sensor_msgs.data].

Lemma bind_normal {A B} (m : M A) (k : A -> M B) w a w' :
  m w = (Normal a, w') -> bind m k w = k a w'.
Proof. unfold bind. intros ->. reflexivity. Qed.

Lemma app_assoc_cons {A} (l l' : list A) (a : A) :
  (l ++ [a]) ++ l' = l ++ a :: l'.
Proof. rewrite <- app_assoc. reflexivity. Qed.

(** One turn of the first loop: one call of the selected fitter with the
    counter, the counter moved on, the box appended. *)
Lemma make_box_runs (cluster : pcl.PointCloud) (w : World) :
  make_box cluster w =
  (Normal tt,
   {| params := params w;
      node := mkNode (next_obstacle_id (obstacle_id_ (node w)))
                (bbox_target_frame_ (node w))
                (prev_boxes_ (node w))
                (curr_boxes_ (node w) ++ [fit (params w) cluster (obstacle_id_ (node w))]);
      tf2_buffer := tf2_buffer w;
      trace := trace w ++ [fit_call (params w) cluster (obstacle_id_ (node w))] |}).
Proof.
  unfold make_box, fit, fit_call.
  destruct w as [p [i f pr cu] b t]. run_node.
  destruct (USE_PCA_BOX p); run_node; reflexivity.
Qed.

(** The first loop as a whole. *)
Lemma first_loop_runs (clusters : list pcl.PointCloud) (w : World) :
  for_each clusters make_box w =
  (Normal tt,
   {| params := params w;
      node := mkNode (counter_after (length clusters) (obstacle_id_ (node w)))
                (bbox_target_frame_ (node w))
                (prev_boxes_ (node w))
                (curr_boxes_ (node w)
                 ++ fitted (params w) clusters (obstacle_id_ (node w)));
      tf2_buffer := tf2_buffer w;
      trace := trace w ++ fit_calls (params w) clusters (obstacle_id_ (node w)) |}).
Proof.
  revert w. induction clusters as [|c cs IH]; intros w.
  - cbn. rewrite !app_nil_r. destruct w as [p [i f pr cu] b t]; reflexivity.
  - cbn [for_each]. rewrite (bind_normal _ _ _ _ _ (make_box_runs c w)).
    rewrite IH. cbn. rewrite !app_assoc_cons. reflexivity.
Qed.

(** The callback when the lookup throws. *)
Lemma callback_lookup_fails (lidar_points : sensor_msgs.PointCloud2) (w : World) ex :
  tf2_buffer w (bbox_target_frame_ (node w))
    (std_msgs.frame_id (sensor_msgs.header lidar_points)) = inr ex ->
  lidarPointsCallback doTransform lidar_points w =
  (Normal tt,
   with_trace w (trace w ++ before_lookup w lidar_points ++ [ROS_WARN (what ex)])).
Proof.
  intros H. unfold lidarPointsCallback, before_lookup.
  destruct w as [p [i f pr cu] b t]; cbn in H. run_node. rewrite H.
  cbn. rewrite <- !app_assoc. reflexivity.
Qed.

(** The callback when the lookup yields a transform. *)
Lemma callback_lookup_succeeds (lidar_points : sensor_msgs.PointCloud2) (w : World) t :
  tf2_buffer w (bbox_target_frame_ (node w))
    (std_msgs.frame_id (sensor_msgs.header lidar_points)) = inl t ->
  lidarPointsCallback doTransform lidar_points w =
  (Normal tt,
   {| params := params w;
      node := mkNode
                (counter_after (length (clusters_of (params w) lidar_points))
                   (obstacle_id_ (node w)))
                (bbox_target_frame_ (node w))
                (frame_boxes w lidar_points)
                [];
      tf2_buffer := tf2_buffer w;
      trace :=
        trace w ++ before_lookup w lidar_points
        ++ fit_calls (params w) (clusters_of (params w) lidar_points) (obstacle_id_ (node w))
        ++ tracking_calls (params w) (prev_boxes_ (node w)) (made_boxes w lidar_points)
        ++ [ pub_jsk_bboxes
               (jsk_array doTransform w lidar_points t (frame_boxes w lidar_points));
             pub_autoware_objects
               (autoware_array doTransform w lidar_points t (frame_boxes w lidar_points)) ] |}).
Proof.
  intros H. unfold lidarPointsCallback.
  destruct w as [p [i f pr cu] b tr]; cbn in H. run_node. rewrite H.
  unfold emit_boxes. run_node.
  match goal with
  | |- context [for_each ?cs make_box ?w0] =>
      rewrite (first_loop_runs cs w0)
  end.
  unfold frame_boxes, made_boxes, tracked, tracking_calls,
    jsk_array, autoware_array, clusters_of, segmented_of, filtered_of.
  run_node. destruct (USE_TRACKING p); run_node; cbn;
    repeat rewrite <- app_assoc; cbn; reflexivity.
Qed.

End Execution.

(** ** The counter *)

Lemma next_obstacle_id_below (i : Z) :
  0 <= i < SIZE_MAX -> next_obstacle_id i = i + 1.
Proof.
  intros H. unfold next_obstacle_id, pre_increment.
  destruct (Z.ltb_spec i SIZE_MAX); [|lia].
  apply Z.mod_small. lia.
Qed.

Lemma next_obstacle_id_at_max : next_obstacle_id SIZE_MAX = 0.
Proof. reflexivity. Qed.

Lemma next_obstacle_id_range (i : Z) :
  0 <= i <= SIZE_MAX -> 0 <= next_obstacle_id i <= SIZE_MAX.
Proof.
  intros H. destruct (Z.eq_dec i SIZE_MAX) as [->|Hne].
  - rewrite next_obstacle_id_at_max. unfold SIZE_MAX. lia.
  - rewrite next_obstacle_id_below by lia. lia.
Qed.

Lemma counter_after_range (n : nat) (i : Z) :
  0 <= i <= SIZE_MAX -> 0 <= counter_after n i <= SIZE_MAX.
Proof.
  revert i. induction n as [|n IH]; intros i H; cbn.
  - exact H.
  - apply IH, next_obstacle_id_range, H.
Qed.

Lemma counter_after_unwrapped (n : nat) (i : Z) :
  0 <= i -> i + Z.of_nat n <= SIZE_MAX -> counter_after n i = i + Z.of_nat n.
Proof.
  revert i. induction n as [|n IH]; intros i H0 H; cbn [counter_after].
  - lia.
  - rewrite next_obstacle_id_below by lia. rewrite IH by lia. lia.
Qed.

(** ** Frames, seen from the node's members *)

Section Frames.

Context {obstacle_detector : ObstacleDetector}.

Variable doTransform :
  geometry_msgs.Pose -> geometry_msgs.TransformStamped -> geometry_msgs.Pose.

Lemma after_failed_lookup (lidar_points : sensor_msgs.PointCloud2) (w : World) ex :
  tf2_buffer w (bbox_target_frame_ (node w))
    (std_msgs.frame_id (sensor_msgs.header lidar_points)) = inr ex ->
  after_frame doTransform lidar_points w =
  with_trace w (trace w ++ before_lookup w lidar_points ++ [ROS_WARN (what ex)]).
Proof.
  intros H. unfold after_frame.
  rewrite (callback_lookup_fails doTransform _ _ _ H). reflexivity.
Qed.

Lemma node_after_lookup (lidar_points : sensor_msgs.PointCloud2) (w : World) t :
  tf2_buffer w (bbox_target_frame_ (node w))
    (std_msgs.frame_id (sensor_msgs.header lidar_points)) = inl t ->
  node (after_frame doTransform lidar_points w) =
  mkNode
    (counter_after (List.length (clusters_of (params w) lidar_points))
       (obstacle_id_ (node w)))
    (bbox_target_frame_ (node w))
    (frame_boxes w lidar_points)
    [].
Proof.
  intros H. unfold after_frame.
  rewrite (callback_lookup_succeeds doTransform _ _ _ H). reflexivity.
Qed.

Lemma callback_returns (lidar_points : sensor_msgs.PointCloud2) (w : World) :
  fst (lidarPointsCallback doTransform lidar_points w) = Normal tt.
Proof.
  destruct (tf2_buffer w (bbox_target_frame_ (node w))
              (std_msgs.frame_id (sensor_msgs.header lidar_points))) as [t|ex] eqn:H.
  - rewrite (callback_lookup_succeeds doTransform _ _ _ H). reflexivity.
  - rewrite (callback_lookup_fails doTransform _ _ _ H). reflexivity.
Qed.

(** Between callbacks the current box vector is empty and the counter is
    a [size_t] value. *)
Lemma reachable_idle (w : World) :
  reachable doTransform w -> curr_boxes_ (node w) = [] /\ counter_in_range w.
Proof.
  unfold counter_in_range.
  induction 1 as [f c l o b | w w' Hw [Hcurr Hrange] Hstep].
  - cbn. unfold SIZE_MAX. split; [reflexivity | lia].
  - destruct Hstep as [w msg | w c l | w b]; cbn; [|tauto|tauto].
    destruct (tf2_buffer w (bbox_target_frame_ (node w))
                (std_msgs.frame_id (sensor_msgs.header msg))) as [t|ex] eqn:H.
    + rewrite (node_after_lookup _ _ _ H). cbn. split; [reflexivity|].
      apply counter_after_range, Hrange.
    + rewrite (after_failed_lookup _ _ _ H). cbn. tauto.
Qed.

End Frames.

(** Every frame begins with the same seven steps, up to the lookup. *)
Lemma frame_begins {D : ObstacleDetector}
  (doTransform : geometry_msgs.Pose -> geometry_msgs.TransformStamped -> geometry_msgs.Pose)
  (lidar_points : sensor_msgs.PointCloud2) (w : World) :
  exists rest,
    added w (after_frame doTransform lidar_points w) (before_lookup w lidar_points ++ rest)
    /\ forall ex,
         tf2_buffer w (bbox_target_frame_ (node w))
           (std_msgs.frame_id (sensor_msgs.header lidar_points)) = inr ex ->
         rest = [ROS_WARN (what ex)].
Proof.
  unfold added, after_frame.
  destruct (tf2_buffer w (bbox_target_frame_ (node w))
              (std_msgs.frame_id (sensor_msgs.header lidar_points))) as [t|ex] eqn:H.
  - rewrite (callback_lookup_succeeds doTransform _ _ _ H).
    eexists. split; [reflexivity | discriminate].
  - rewrite (callback_lookup_fails doTransform _ _ _ H).
    eexists. split; [reflexivity|]. intros ex' [= <-]. reflexivity.
Qed.

(** ** Lists of events *)

Lemma existsb_app_false {A} (f : A -> bool) (l l' : list A) :
  existsb f l = false -> existsb f l' = false -> existsb f (l ++ l') = false.
Proof. intros H H'. rewrite existsb_app, H, H'. reflexivity. Qed.

Lemma fit_calls_no_tracking {D : ObstacleDetector} p cs i :
  existsb is_tracking_call (fit_calls p cs i) = false.
Proof.
  revert i. induction cs as [|c cs IH]; intros i; cbn; [reflexivity|].
  rewrite IH. unfold fit_call. destruct (USE_PCA_BOX p); reflexivity.
Qed.

Lemma fit_calls_no_publication {D : ObstacleDetector} p cs i :
  existsb is_box_publication (fit_calls p cs i) = false.
Proof.
  revert i. induction cs as [|c cs IH]; intros i; cbn; [reflexivity|].
  rewrite IH. unfold fit_call. destruct (USE_PCA_BOX p); reflexivity.
Qed.

Lemma fitted_length {D : ObstacleDetector} p cs i :
  List.length (fitted p cs i) = List.length cs.
Proof.
  revert i. induction cs as [|c cs IH]; intros i; cbn; [reflexivity|].
  rewrite IH. reflexivity.
Qed.

Lemma fitted_nth {D : ObstacleDetector} p cs i k c :
  nth_error cs k = Some c ->
  nth_error (fitted p cs i) k = Some (fit p c (counter_after k i)).
Proof.
  revert i k. induction cs as [|c0 cs IH]; intros i [|k]; cbn; try discriminate.
  - intros [= ->]. reflexivity.
  - intros H. apply IH, H.
Qed.

Lemma fit_calls_nth {D : ObstacleDetector} p cs i k c :
  nth_error cs k = Some c ->
  nth_error (fit_calls p cs i) k = Some (fit_call p c (counter_after k i)).
Proof.
  revert i k. induction cs as [|c0 cs IH]; intros i [|k]; cbn; try discriminate.
  - intros [= ->]. reflexivity.
  - intros H. apply IH, H.
Qed.

Lemma fit_calls_length {D : ObstacleDetector} p cs i :
  List.length (fit_calls p cs i) = List.length cs.
Proof.
  revert i. induction cs as [|c cs IH]; intros i; cbn; [reflexivity|].
  rewrite IH. reflexivity.
Qed.

Lemma budgets_app (t t' : list Event) : budgets (t ++ t') = budgets t ++ budgets t'.
Proof. unfold budgets. apply flat_map_app. Qed.

Lemma fit_calls_budgets {D : ObstacleDetector} p cs i : budgets (fit_calls p cs i) = [].
Proof.
  revert i. induction cs as [|c cs IH]; intros i; [reflexivity|].
  change (fit_calls p (c :: cs) i) with ([fit_call p c i] ++ fit_calls p cs (next_obstacle_id i)).
  rewrite budgets_app, IH. unfold fit_call. destruct (USE_PCA_BOX p); reflexivity.
Qed.

Lemma existsb_false_In {A} (f : A -> bool) (l : list A) (a : A) :
  existsb f l = false -> In a l -> f a = false.
Proof.
  intros H Ha. destruct (f a) eqn:Hf; [|reflexivity].
  rewrite <- H. symmetry. apply existsb_exists. exists a. split; assumption.
Qed.

Lemma jsk_array_labels
  (doTransform : geometry_msgs.Pose -> geometry_msgs.TransformStamped -> geometry_msgs.Pose)
  w lidar_points t bs :
  map jsk_recognition_msgs.label
    (jsk_recognition_msgs.boxes (jsk_array doTransform w lidar_points t bs))
  = map (fun b => uint32_of (id b)) bs.
Proof. cbn. rewrite map_map. reflexivity. Qed.

Lemma autoware_array_ids
  (doTransform : geometry_msgs.Pose -> geometry_msgs.TransformStamped -> geometry_msgs.Pose)
  w lidar_points t bs :
  map autoware_msgs.id
    (autoware_msgs.objects (autoware_array doTransform w lidar_points t bs))
  = map (fun b => uint32_of (id b)) bs.
Proof. cbn. rewrite map_map. reflexivity. Qed.

Lemma uint32_of_ids (bs : list Box) :
  Forall (fun b => 0 <= id b < 2 ^ 32) bs ->
  map (fun b => uint32_of (id b)) bs = map id bs.
Proof.
  induction 1 as [|b bs Hb _ IH]; cbn; [reflexivity|].
  rewrite IH. unfold uint32_of. rewrite Z.mod_small by exact Hb. reflexivity.
Qed.

Lemma before_lookup_no_publication {D : ObstacleDetector} w lidar_points l :
  existsb is_box_publication l = false ->
  existsb is_box_publication (before_lookup w lidar_points ++ l) = false.
Proof. intros H. apply existsb_app_false; [reflexivity | exact H]. Qed.

Lemma fit_calls_indexed_from {D : ObstacleDetector} p cs i0 (s : nat) :
  fit_calls p cs (counter_after s i0)
  = map (fun kc =>
           if USE_PCA_BOX p
           then call_pcaBoundingBox (snd kc) (counter_after (fst kc) i0)
           else call_axisAlignedBoundingBox (snd kc) (counter_after (fst kc) i0))
      (combine (seq s (List.length cs)) cs).
Proof.
  revert s. induction cs as [|c cs IH]; intros s; [reflexivity|].
  cbn [fit_calls List.length seq combine map fst snd].
  rewrite <- (IH (S s)).
  replace (counter_after (S s) i0) with (next_obstacle_id (counter_after s i0)).
  - unfold fit_call. destruct (USE_PCA_BOX p); reflexivity.
  - clear. revert i0. induction s as [|s IHs]; intros i0; [reflexivity|].
    cbn [counter_after]. apply IHs.
Qed.

(** The fitter calls of a loop, cluster by cluster. *)
Lemma fit_calls_indexed {D : ObstacleDetector} p cs i :
  fit_calls p cs i
  = map (fun kc =>
           if USE_PCA_BOX p
           then call_pcaBoundingBox (snd kc) (counter_after (fst kc) i)
           else call_axisAlignedBoundingBox (snd kc) (counter_after (fst kc) i))
      (indexed cs).
Proof. apply (fit_calls_indexed_from p cs i 0). Qed.

(** ** The tracker of the spec *)

Lemma indexed_from_nth_error {A} (l : list A) (s j : nat) :
  nth_error (combine (seq s (List.length l)) l) j
  = option_map (pair (s + j)%nat) (nth_error l j).
Proof.
  revert s j. induction l as [|a l IH]; intros s [|j]; cbn; try reflexivity.
  - rewrite Nat.add_0_r. reflexivity.
  - rewrite IH. rewrite Nat.add_succ_r. reflexivity.
Qed.

Lemma indexed_nth_error {A} (l : list A) (j : nat) :
  nth_error (indexed l) j = option_map (pair j) (nth_error l j).
Proof. apply (indexed_from_nth_error l 0 j). Qed.

Lemma indexed_length {A} (l : list A) : List.length (indexed l) = List.length l.
Proof. unfold indexed. rewrite length_combine, length_seq. apply Nat.min_id. Qed.

Lemma reassigned_length prev curr m :
  List.length (reassigned prev curr m) = List.length curr.
Proof. unfold reassigned. rewrite length_map. apply indexed_length. Qed.

(** The id the [j]-th current box has after a matching is applied. *)
Lemma reassigned_id_at prev curr m j c :
  nth_error curr j = Some c ->
  nth_error (map id (reassigned prev curr m)) j
  = Some (match find (fun ab => Nat.eqb (snd ab) j) m with
          | Some ab => id (nth (fst ab) prev c)
          | None => id c
          end).
Proof.
  intros Hc. unfold reassigned. rewrite map_map, nth_error_map, indexed_nth_error, Hc.
  cbn. destruct (find _ m); reflexivity.
Qed.

Lemma same_image_same_element {A B} (f : A -> B) (l : list A) (x y : A) :
  NoDup (map f l) -> In x l -> In y l -> f x = f y -> x = y.
Proof.
  induction l as [|a l IH]; cbn; [tauto|].
  intros Hnd Hx Hy Hf. inversion Hnd as [|? ? Hnot Hrest]; subst.
  destruct Hx as [->|Hx], Hy as [->|Hy].
  - reflexivity.
  - exfalso. apply Hnot. rewrite Hf. apply in_map, Hy.
  - exfalso. apply Hnot. rewrite <- Hf. apply in_map, Hx.
  - apply IH; assumption.
Qed.

Lemma id_of_nth (l : list Box) (a : nat) (d : Box) :
  (a < List.length l)%nat -> nth_error (map id l) a = Some (id (nth a l d)).
Proof.
  intros H. rewrite nth_error_map. rewrite (nth_error_nth' l d H). reflexivity.
Qed.

(** Applying a one-to-one matching keeps ids distinct, when the previous
    ids are distinct, the current ids are distinct, and no id is on both
    sides. *)
Lemma reassigned_distinct prev curr m :
  distinct_ids prev -> distinct_ids curr ->
  (forall p c, In p prev -> In c curr -> id p <> id c) ->
  one_to_one m (List.length prev) (List.length curr) ->
  distinct_ids (reassigned prev curr m).
Proof.
  intros Hprev Hcurr Hsplit (Hfst & _ & Hrange).
  unfold distinct_ids. apply NoDup_nth_error. intros j1 j2 Hlt Heq.
  rewrite length_map, reassigned_length in Hlt.
  destruct (nth_error curr j1) as [c1|] eqn:H1;
    [|apply nth_error_None in H1; lia].
  rewrite (reassigned_id_at _ _ _ _ _ H1) in Heq.
  destruct (nth_error curr j2) as [c2|] eqn:H2.
  2:{ apply nth_error_None in H2.
      rewrite (proj2 (nth_error_None (map id (reassigned prev curr m)) j2)) in Heq
        by (rewrite length_map, reassigned_length; exact H2).
      discriminate. }
  rewrite (reassigned_id_at _ _ _ _ _ H2) in Heq.
  injection Heq as Heq.
  rewrite Forall_forall in Hrange.
  destruct (find (fun ab => Nat.eqb (snd ab) j1) m) as [ab1|] eqn:F1;
    destruct (find (fun ab => Nat.eqb (snd ab) j2) m) as [ab2|] eqn:F2.
  - apply find_some in F1, F2. destruct F1 as [In1 E1], F2 as [In2 E2].
    apply Nat.eqb_eq in E1, E2.
    destruct (Hrange _ In1) as [R1 _], (Hrange _ In2) as [R2 _].
    assert (Ha : fst ab1 = fst ab2).
    { apply (proj1 (NoDup_nth_error (map id prev)) Hprev).
      - rewrite length_map. exact R1.
      - rewrite (id_of_nth prev _ c1 R1), (id_of_nth prev _ c2 R2), Heq. reflexivity. }
    assert (Hab : ab1 = ab2) by (apply (same_image_same_element fst m); assumption).
    subst ab2. congruence.
  - apply find_some in F1. destruct F1 as [In1 _].
    destruct (Hrange _ In1) as [R1 _].
    exfalso. apply (Hsplit (nth (fst ab1) prev c1) c2).
    + apply nth_In, R1.
    + apply (nth_error_In _ _ H2).
    + exact Heq.
  - apply find_some in F2. destruct F2 as [In2 _].
    destruct (Hrange _ In2) as [R2 _].
    exfalso. apply (Hsplit (nth (fst ab2) prev c2) c1).
    + apply nth_In, R2.
    + apply (nth_error_In _ _ H1).
    + symmetry. exact Heq.
  - apply (proj1 (NoDup_nth_error (map id curr)) Hcurr).
    + rewrite length_map. apply nth_error_Some. rewrite H1. discriminate.
    + rewrite !nth_error_map, H1, H2. cbn. rewrite Heq. reflexivity.
Qed.

(** After a matching every id is a previous id or a current id. *)
Lemma reassigned_ids prev curr m b :
  one_to_one m (List.length prev) (List.length curr) ->
  In b (reassigned prev curr m) ->
  (exists p, In p prev /\ id b = id p) \/ (exists c, In c curr /\ id b = id c).
Proof.
  intros (_ & _ & Hrange) Hb. rewrite Forall_forall in Hrange.
  unfold reassigned in Hb. apply in_map_iff in Hb.
  destruct Hb as ([j c] & Hb & Hjc). cbn in Hb.
  apply in_combine_r in Hjc.
  destruct (find (fun ab => Nat.eqb (snd ab) j) m) as [ab|] eqn:F.
  - apply find_some in F. destruct F as [Hin _].
    destruct (Hrange _ Hin) as [R _].
    left. exists (nth (fst ab) prev c). split; [apply nth_In, R|].
    subst b. reflexivity.
  - right. exists c. subst b. split; [exact Hjc | reflexivity].
Qed.

Lemma best_in score l ab : best score l = Some ab -> In ab l.
Proof.
  revert ab. induction l as [|cd l IH]; cbn; [discriminate|].
  intros ab. destruct (best score l) as [ef|].
  - destruct (score ef <? score cd)%float; intros [= <-]; [right; apply IH|left]; reflexivity.
  - intros [= <-]. left. reflexivity.
Qed.

Lemma greedy_in fuel score l ab : In ab (greedy fuel score l) -> In ab l.
Proof.
  revert l. induction fuel as [|fuel IH]; intros l; cbn; [tauto|].
  destruct (best score l) as [cd|] eqn:B; cbn; [|tauto].
  intros [<-|H].
  - apply (best_in _ _ _ B).
  - apply IH in H. apply filter_In in H. tauto.
Qed.

Lemma greedy_apart fuel score l :
  NoDup (map fst (greedy fuel score l)) /\ NoDup (map snd (greedy fuel score l)).
Proof.
  revert l. induction fuel as [|fuel IH]; intros l; cbn; [split; constructor|].
  destruct (best score l) as [cd|] eqn:B; cbn; [|split; constructor].
  destruct (IH (filter (apart cd) l)) as [IH1 IH2].
  split; constructor; try assumption.
  - intros Hin. apply in_map_iff in Hin. destruct Hin as (ef & Hf & Hin).
    apply greedy_in, filter_In in Hin. destruct Hin as [_ Hap].
    unfold apart in Hap. apply andb_prop in Hap. destruct Hap as [Hap _].
    apply negb_true_iff, Nat.eqb_neq in Hap. congruence.
  - intros Hin. apply in_map_iff in Hin. destruct Hin as (ef & Hf & Hin).
    apply greedy_in, filter_In in Hin. destruct Hin as [_ Hap].
    unfold apart in Hap. apply andb_prop in Hap. destruct Hap as [_ Hap].
    apply negb_true_iff, Nat.eqb_neq in Hap. congruence.
Qed.

Lemma filter_drops {A} (f : A -> bool) (l : list A) (a : A) :
  In a l -> f a = false -> (List.length (filter f l) < List.length l)%nat.
Proof.
  induction l as [|b l IH]; cbn; [tauto|].
  intros [->|Hin] Hf.
  - rewrite Hf. pose proof (filter_length_le f l). lia.
  - specialize (IH Hin Hf). destruct (f b); cbn; lia.
Qed.

Lemma apart_self ab : apart ab ab = false.
Proof. unfold apart. rewrite Nat.eqb_refl. reflexivity. Qed.

(** The rounds of the greedy matching end because no pair is left, never
    because the fuel is used up: more fuel than the number of candidate
    pairs changes nothing. *)
Lemma greedy_fuel_suffices fuel score l :
  (List.length l <= fuel)%nat -> greedy (S fuel) score l = greedy fuel score l.
Proof.
  revert l. induction fuel as [|fuel IH]; intros l Hl.
  - destruct l; [reflexivity | cbn in Hl; lia].
  - change (greedy (S (S fuel)) score l)
      with (match best score l with
            | Some ab => ab :: greedy (S fuel) score (filter (apart ab) l)
            | None => []
            end).
    change (greedy (S fuel) score l)
      with (match best score l with
            | Some ab => ab :: greedy fuel score (filter (apart ab) l)
            | None => []
            end).
    destruct (best score l) as [ab|] eqn:B; [|reflexivity].
    rewrite IH; [reflexivity|].
    pose proof (filter_drops (apart ab) l ab (best_in _ _ _ B) (apart_self ab)). lia.
Qed.

Lemma candidates_in_range prev curr disp iou ab :
  In ab (candidates prev curr disp iou) ->
  (fst ab < List.length prev)%nat /\ (snd ab < List.length curr)%nat.
Proof.
  unfold candidates. intros H. apply filter_In in H. destruct H as [H _].
  destruct ab as [a b]. apply in_prod_iff in H. rewrite !in_seq in H. cbn. lia.
Qed.

(** The greedy tracker is a tracker in the sense of the spec. *)
Lemma greedy_tracking_tracks prev curr disp iou :
  tracks prev curr (greedy_tracking prev curr disp iou).
Proof.
  unfold tracks, greedy_tracking.
  eexists. split; [|reflexivity].
  unfold one_to_one.
  split; [apply greedy_apart|]. split; [apply greedy_apart|].
  apply Forall_forall. intros ab H.
  apply greedy_in in H. apply (candidates_in_range _ _ _ _ _ H).
Qed.

Lemma test_detector_spec : DetectorSpec test_detector.
Proof.
  constructor.
  - reflexivity.
  - reflexivity.
  - apply greedy_tracking_tracks.
Qed.

(** ** Distinct ids while the counter has not been reset *)

Section Distinct.

Context {D : ObstacleDetector} {S : DetectorSpec D}.

Variable doTransform :
  geometry_msgs.Pose -> geometry_msgs.TransformStamped -> geometry_msgs.Pose.

Lemma fit_id p cluster i : id (fit p cluster i) = i.
Proof.
  unfold fit. destruct (USE_PCA_BOX p); [apply pca_assigns_id | apply aabb_assigns_id].
Qed.

(** The boxes of one loop carry the consecutive counter values. *)
Lemma fitted_ids p cs i :
  0 <= i -> i + Z.of_nat (List.length cs) <= SIZE_MAX ->
  Forall (fun b => i <= id b < i + Z.of_nat (List.length cs)) (fitted p cs i)
  /\ distinct_ids (fitted p cs i).
Proof.
  unfold distinct_ids.
  revert i. induction cs as [|c cs IH]; intros i H0 Hfit.
  - split; constructor.
  - cbn [fitted List.length] in *.
    rewrite next_obstacle_id_below by lia.
    destruct (IH (i + 1)) as [IHr IHd]; [lia | lia |].
    split.
    + constructor.
      * rewrite fit_id. lia.
      * eapply Forall_impl; [|exact IHr]. cbn. intros b Hb. lia.
    + cbn [map]. constructor; [|exact IHd].
      rewrite fit_id. intros Hin. apply in_map_iff in Hin.
      destruct Hin as (b & Hb & Hin).
      rewrite Forall_forall in IHr. specialize (IHr b Hin). lia.
Qed.

(** The tracking step keeps ids distinct and below the new counter. *)
Lemma tracked_ids p prev curr i n :
  0 <= i -> 0 <= n ->
  distinct_ids prev -> Forall (fun b => 0 <= id b < i) prev ->
  distinct_ids curr -> Forall (fun b => i <= id b < i + n) curr ->
  distinct_ids (tracked p prev curr)
  /\ Forall (fun b => 0 <= id b < i + n) (tracked p prev curr).
Proof.
  intros Hi Hn Hprev Hlow Hcurr Hhigh. unfold tracked.
  rewrite Forall_forall in Hlow, Hhigh.
  destruct (USE_TRACKING p).
  - destruct (tracking_reassigns prev curr (DISPLACEMENT_THRESH p) (IOU_THRESH p))
      as (m & Hm & ->).
    split.
    + apply reassigned_distinct; try assumption.
      intros b c Hb Hc. specialize (Hlow b Hb). specialize (Hhigh c Hc). lia.
    + apply Forall_forall. intros b Hb.
      destruct (reassigned_ids _ _ _ _ Hm Hb) as [(q & Hq & ->)|(q & Hq & ->)].
      * specialize (Hlow q Hq). lia.
      * specialize (Hhigh q Hq). lia.
  - split; [exact Hcurr|].
    apply Forall_forall. intros b Hb. specialize (Hhigh b Hb). lia.
Qed.

(** The boxes of a frame that fits, started in a tidy world. *)
Lemma frame_boxes_ids w lidar_points :
  tidy w ->
  obstacle_id_ (node w)
  + Z.of_nat (List.length (clusters_of (params w) lidar_points)) <= SIZE_MAX ->
  distinct_ids (frame_boxes w lidar_points)
  /\ Forall (fun b => 0 <= id b
                      < obstacle_id_ (node w)
                        + Z.of_nat (List.length (clusters_of (params w) lidar_points)))
       (frame_boxes w lidar_points).
Proof.
  intros (Hcurr & Hprev & Hlow & Hrange) Hfit.
  unfold frame_boxes, made_boxes. rewrite Hcurr. cbn [app].
  destruct (fitted_ids (params w) (clusters_of (params w) lidar_points)
              (obstacle_id_ (node w))) as [Hr Hd];
    [apply Hrange | exact Hfit |].
  apply tracked_ids; try assumption; [apply Hrange | lia].
Qed.

Lemma tidy_after_frame w lidar_points :
  tidy w -> fits w lidar_points -> tidy (after_frame doTransform lidar_points w).
Proof.
  intros Htidy Hfit. unfold fits, boxes_due in Hfit. unfold tidy, counter_in_range.
  destruct (tf2_buffer w (bbox_target_frame_ (node w))
              (std_msgs.frame_id (sensor_msgs.header lidar_points))) as [t|ex] eqn:H.
  - rewrite (node_after_lookup doTransform _ _ _ H).
    cbn [curr_boxes_ prev_boxes_ obstacle_id_].
    destruct (frame_boxes_ids w lidar_points Htidy Hfit) as [Hd Hr].
    destruct Htidy as (_ & _ & _ & Hrange).
    rewrite counter_after_unwrapped by (try apply Hrange; exact Hfit).
    repeat split; try assumption. unfold counter_in_range in Hrange. lia.
  - rewrite (after_failed_lookup doTransform _ _ _ H). exact Htidy.
Qed.

Lemma unwrapped_tidy w : unwrapped doTransform w -> tidy w.
Proof.
  induction 1 as [f c l o b | w msg Hw IH Hfit | w c l Hw IH | w b Hw IH].
  - unfold tidy, distinct_ids, counter_in_range. cbn. unfold SIZE_MAX.
    repeat split; try constructor; lia.
  - apply tidy_after_frame; assumption.
  - exact IH.
  - exact IH.
Qed.

End Distinct.

(** ** A run long enough for the counter to be reset *)

Lemma next_obstacle_id_mod (i : Z) :
  0 <= i <= SIZE_MAX -> next_obstacle_id i = (i + 1) mod 2 ^ 64.
Proof.
  intros H. destruct (Z.eq_dec i SIZE_MAX) as [->|Hne].
  - reflexivity.
  - rewrite next_obstacle_id_below by lia.
    symmetry. apply Z.mod_small. unfold SIZE_MAX in *. lia.
Qed.

Lemma params_after_frame {D : ObstacleDetector} doTransform lidar_points w :
  params (after_frame doTransform lidar_points w) = params w
  /\ tf2_buffer (after_frame doTransform lidar_points w) = tf2_buffer w.
Proof.
  unfold after_frame.
  destruct (tf2_buffer w (bbox_target_frame_ (node w))
              (std_msgs.frame_id (sensor_msgs.header lidar_points))) as [t|ex] eqn:H.
  - rewrite (callback_lookup_succeeds doTransform _ _ _ H). split; reflexivity.
  - rewrite (callback_lookup_fails doTransform _ _ _ H). split; reflexivity.
Qed.

(** The tracker matches the box at the origin with the previous box at
    the origin, whatever its provisional id. *)
Lemma origin_is_tracked (i : Z) :
  frame_boxes (obstacle_detector := test_detector)
    (mkWorld (params (started test_config buffer_ready))
       (mkNode i "base_link" [bounding_box [origin] 0] []) buffer_ready [])
    (frame_of [origin])
  = [bounding_box [origin] 0].
Proof. vm_compute. reflexivity. Qed.

Lemma frame_boxes_of_parts {D : ObstacleDetector} w w' lidar_points :
  params w = params w' -> node w = node w' ->
  frame_boxes w lidar_points = frame_boxes w' lidar_points.
Proof.
  intros Hp Hn. unfold frame_boxes, made_boxes. rewrite Hp, Hn. reflexivity.
Qed.

Lemma one_more_frame (w : World) (i : Z) :
  0 <= i <= SIZE_MAX -> settled w i ->
  settled
    (after_frame (obstacle_detector := test_detector) translate (frame_of [origin]) w)
    ((i + 1) mod 2 ^ 64).
Proof.
  intros Hi (Hp & Hb & Hn). unfold settled.
  destruct (params_after_frame (D := test_detector) translate (frame_of [origin]) w)
    as [Hp' Hb'].
  rewrite Hp', Hb'. split; [exact Hp|]. split; [exact Hb|].
  assert (H : tf2_buffer w (bbox_target_frame_ (node w))
                (std_msgs.frame_id (sensor_msgs.header (frame_of [origin])))
              = inl base_link_transform)
    by (rewrite Hb; reflexivity).
  rewrite (node_after_lookup (obstacle_detector := test_detector) translate _ _ _ H).
  rewrite (frame_boxes_of_parts (D := test_detector) w
             (mkWorld (params (started test_config buffer_ready))
                (mkNode i "base_link" [bounding_box [origin] 0] []) buffer_ready [])
             (frame_of [origin]) Hp Hn).
  rewrite origin_is_tracked, Hp, Hn.
  change (List.length
            (clusters_of (obstacle_detector := test_detector)
               (params (started test_config buffer_ready)) (frame_of [origin])))
    with 1%nat.
  cbn [counter_after obstacle_id_ bbox_target_frame_].
  rewrite next_obstacle_id_mod by exact Hi. reflexivity.
Qed.

Lemma after_frames (n : nat) :
  settled
    (Nat.iter (S n)
       (after_frame (obstacle_detector := test_detector) translate (frame_of [origin]))
       (started test_config buffer_ready))
    (Z.of_nat (S n) mod 2 ^ 64).
Proof.
  induction n as [|n IH].
  - unfold settled. cbn [Nat.iter]. repeat split.
  - rewrite Nat.iter_succ.
    replace (Z.of_nat (S (S n)) mod 2 ^ 64)
      with ((Z.of_nat (S n) mod 2 ^ 64 + 1) mod 2 ^ 64).
    + apply one_more_frame; [|exact IH].
      pose proof (Z.mod_pos_bound (Z.of_nat (S n)) (2 ^ 64)). unfold SIZE_MAX. lia.
    + rewrite Zplus_mod_idemp_l. f_equal. lia.
Qed.

Lemma frames_reachable {D : ObstacleDetector} doTransform lidar_points
  (w : World) (n : nat) :
  reachable doTransform w ->
  reachable doTransform (Nat.iter n (after_frame doTransform lidar_points) w).
Proof.
  intros Hw. induction n as [|n IH].
  - exact Hw.
  - rewrite Nat.iter_succ. eapply reachable_step; [exact IH | apply step_frame].
Qed.

(** After 2^64 frames of one box each the counter is back at 0, and the
    box at the origin still has the id 0 it was first given. *)
Lemma long_run_state : settled long_run 0.
Proof.
  assert (Hn : Z.to_nat (2 ^ 64) = S (Z.to_nat (2 ^ 64 - 1))) by lia.
  assert (Hz : Z.of_nat (S (Z.to_nat (2 ^ 64 - 1))) mod 2 ^ 64 = 0).
  { rewrite Nat2Z.inj_succ, Z2Nat.id by lia.
    replace (Z.succ (2 ^ 64 - 1)) with (2 ^ 64) by lia.
    apply Z_mod_same_full. }
  unfold long_run. rewrite Hn, <- Hz.
  exact (after_frames (Z.to_nat (2 ^ 64 - 1))).
Qed.

(** ** A run long enough for an id to outgrow 32 bits *)

Lemma one_more_untracked_frame (w : World) (i : Z) :
  0 <= i <= SIZE_MAX -> counting w i ->
  counting
    (after_frame (obstacle_detector := test_detector) translate (frame_of [origin]) w)
    ((i + 1) mod 2 ^ 64).
Proof.
  intros Hi (Hp & Hb & Hid & Hf & Hc). unfold counting.
  destruct (params_after_frame (D := test_detector) translate (frame_of [origin]) w)
    as [Hp' Hb'].
  rewrite Hp', Hb'. split; [exact Hp|]. split; [exact Hb|].
  assert (H : tf2_buffer w (bbox_target_frame_ (node w))
                (std_msgs.frame_id (sensor_msgs.header (frame_of [origin])))
              = inl base_link_transform)
    by (rewrite Hb; reflexivity).
  rewrite (node_after_lookup (obstacle_detector := test_detector) translate _ _ _ H).
  cbn [obstacle_id_ bbox_target_frame_ curr_boxes_].
  rewrite Hp, Hid.
  change (List.length
            (clusters_of (obstacle_detector := test_detector)
               (params (started untracked_config buffer_ready)) (frame_of [origin])))
    with 1%nat.
  cbn [counter_after].
  rewrite next_obstacle_id_mod by exact Hi.
  split; [reflexivity|]. split; [exact Hf | reflexivity].
Qed.

Lemma after_untracked_frames (n : nat) :
  counting
    (Nat.iter n
       (after_frame (obstacle_detector := test_detector) translate (frame_of [origin]))
       (started untracked_config buffer_ready))
    (Z.of_nat n mod 2 ^ 64).
Proof.
  induction n as [|n IH].
  - unfold counting. cbn [Nat.iter]. repeat split.
  - rewrite Nat.iter_succ.
    replace (Z.of_nat (S n) mod 2 ^ 64)
      with ((Z.of_nat n mod 2 ^ 64 + 1) mod 2 ^ 64).
    + apply one_more_untracked_frame; [|exact IH].
      pose proof (Z.mod_pos_bound (Z.of_nat n) (2 ^ 64)). unfold SIZE_MAX. lia.
    + rewrite Zplus_mod_idemp_l. f_equal. lia.
Qed.

(** After 2^32 frames of one box each the counter is at 2^32. *)
Lemma untracked_run_state : counting untracked_run (2 ^ 32).
Proof.
  assert (Hz : Z.of_nat (Z.to_nat (2 ^ 32)) mod 2 ^ 64 = 2 ^ 32).
  { rewrite Z2Nat.id by lia. apply Z.mod_small. lia. }
  unfold untracked_run. rewrite <- Hz at 2.
  exact (after_untracked_frames (Z.to_nat (2 ^ 32))).
Qed.

(** * The statements of the specification, one by one *)

(** C1: when the transform lookup of a frame fails, the callback returns
    normally (the exception is caught, none leaves the callback), the
    node's members are what they were before the frame, in particular the
    previous boxes and the current boxes, and neither box array is
    published; the warning with the exception's text is logged. *)
Theorem failed_lookup_skips_emission {D : ObstacleDetector}
  (doTransform : geometry_msgs.Pose -> geometry_msgs.TransformStamped -> geometry_msgs.Pose)
  (lidar_points : sensor_msgs.PointCloud2) (w : World) (ex : Exception) :
  tf2_buffer w (bbox_target_frame_ (node w))
    (std_msgs.frame_id (sensor_msgs.header lidar_points)) = inr ex ->
  fst (lidarPointsCallback doTransform lidar_points w) = Normal tt
  /\ node (after_frame doTransform lidar_points w) = node w
  /\ prev_boxes_ (node (after_frame doTransform lidar_points w)) = prev_boxes_ (node w)
  /\ curr_boxes_ (node (after_frame doTransform lidar_points w)) = curr_boxes_ (node w)
  /\ exists t,
       added w (after_frame doTransform lidar_points w) t
       /\ existsb is_box_publication t = false
       /\ In (ROS_WARN (what ex)) t.
Proof.
  intros H. split; [apply callback_returns|].
  rewrite (after_failed_lookup doTransform _ _ _ H).
  repeat split.
  exists (before_lookup w lidar_points ++ [ROS_WARN (what ex)]).
  split; [reflexivity|]. split.
  - reflexivity.
  - apply in_or_app. right. left. reflexivity.
Qed.

Lemma failed_lookup_skips_emission_witness :
  fst (lidarPointsCallback (obstacle_detector := test_detector) translate
         (frame_of [origin]) (started test_config buffer_empty)) = Normal tt
  /\ node (after_frame (obstacle_detector := test_detector) translate
             (frame_of [origin]) (started test_config buffer_empty))
     = node (started test_config buffer_empty)
  /\ prev_boxes_ (node (after_frame (obstacle_detector := test_detector) translate
                          (frame_of [origin]) (started test_config buffer_empty)))
     = prev_boxes_ (node (started test_config buffer_empty))
  /\ curr_boxes_ (node (after_frame (obstacle_detector := test_detector) translate
                          (frame_of [origin]) (started test_config buffer_empty)))
     = curr_boxes_ (node (started test_config buffer_empty))
  /\ exists t,
       added (started test_config buffer_empty)
         (after_frame (obstacle_detector := test_detector) translate
            (frame_of [origin]) (started test_config buffer_empty)) t
       /\ existsb is_box_publication t = false
       /\ In (ROS_WARN "frame does not exist") t.
Proof.
  exact (failed_lookup_skips_emission (D := test_detector) translate
           (frame_of [origin]) (started test_config buffer_empty)
           (TransformException "frame does not exist") eq_refl).
Defined.

(** C2: when the lookup succeeds the callback runs to its end, and then
    the previous boxes are the boxes that were current in the frame after
    the tracking step (the ones the two published arrays were built
    from) and the current boxes are empty. *)
Theorem completed_frame_hands_boxes_over {D : ObstacleDetector}
  (doTransform : geometry_msgs.Pose -> geometry_msgs.TransformStamped -> geometry_msgs.Pose)
  (lidar_points : sensor_msgs.PointCloud2) (w : World)
  (t : geometry_msgs.TransformStamped) :
  tf2_buffer w (bbox_target_frame_ (node w))
    (std_msgs.frame_id (sensor_msgs.header lidar_points)) = inl t ->
  fst (lidarPointsCallback doTransform lidar_points w) = Normal tt
  /\ prev_boxes_ (node (after_frame doTransform lidar_points w))
     = tracked (params w) (prev_boxes_ (node w))
         (curr_boxes_ (node w)
          ++ fitted (params w) (clusters_of (params w) lidar_points) (obstacle_id_ (node w)))
  /\ curr_boxes_ (node (after_frame doTransform lidar_points w)) = []
  /\ exists before,
       added w (after_frame doTransform lidar_points w)
         (before
          ++ [ pub_jsk_bboxes
                 (jsk_array doTransform w lidar_points t
                    (prev_boxes_ (node (after_frame doTransform lidar_points w))));
               pub_autoware_objects
                 (autoware_array doTransform w lidar_points t
                    (prev_boxes_ (node (after_frame doTransform lidar_points w)))) ])
       /\ existsb is_box_publication before = false.
Proof.
  intros H. split; [apply callback_returns|].
  unfold after_frame, added.
  rewrite (callback_lookup_succeeds doTransform _ _ _ H). cbn [snd node trace prev_boxes_ curr_boxes_].
  repeat split.
  exists (before_lookup w lidar_points
          ++ fit_calls (params w) (clusters_of (params w) lidar_points) (obstacle_id_ (node w))
          ++ tracking_calls (params w) (prev_boxes_ (node w)) (made_boxes w lidar_points)).
  split.
  - rewrite <- !app_assoc. reflexivity.
  - apply existsb_app_false; [reflexivity|].
    apply existsb_app_false; [apply fit_calls_no_publication|].
    unfold tracking_calls. destruct (USE_TRACKING (params w)); reflexivity.
Qed.

Lemma completed_frame_hands_boxes_over_witness :
  prev_boxes_ (node (after_frame (obstacle_detector := test_detector) translate
                       (frame_of [origin; far_away]) (started test_config buffer_ready)))
  = [ bounding_box [origin] 0; bounding_box [far_away] 1 ]
  /\ curr_boxes_ (node (after_frame (obstacle_detector := test_detector) translate
                          (frame_of [origin; far_away]) (started test_config buffer_ready)))
     = [].
Proof.
  destruct (completed_frame_hands_boxes_over (D := test_detector) translate
              (frame_of [origin; far_away]) (started test_config buffer_ready)
              base_link_transform eq_refl) as (_ & Hprev & Hcurr & _).
  split; [rewrite Hprev; reflexivity | exact Hcurr].
Defined.

(** C6: in every frame the callback filters, segments, clusters and
    publishes the ground cloud and the obstacle cloud, in this order, and
    only then looks the transform up; when the lookup fails, the frame's
    trace is exactly these steps followed by the warning, so both clouds
    of the frame were computed and went out. *)
Theorem clouds_go_out_before_lookup {D : ObstacleDetector}
  (doTransform : geometry_msgs.Pose -> geometry_msgs.TransformStamped -> geometry_msgs.Pose)
  (lidar_points : sensor_msgs.PointCloud2) (w : World) :
  exists rest,
    added w (after_frame doTransform lidar_points w)
      ([ ROS_INFO "lidar points recieved";
         call_filterCloud (fromROSMsg lidar_points) (VOXEL_GRID_SIZE (params w))
           (ROI_MIN_POINT (params w)) (ROI_MAX_POINT (params w));
         call_segmentPlane (filtered_of (params w) lidar_points) 30
           (GROUND_THRESH (params w));
         call_clustering (fst (segmented_of (params w) lidar_points))
           (CLUSTER_THRESH (params w)) (CLUSTER_MIN_SIZE (params w))
           (CLUSTER_MAX_SIZE (params w));
         pub_cloud_ground
           (sensor_msgs.mkPointCloud2 (sensor_msgs.header lidar_points)
              (snd (segmented_of (params w) lidar_points)));
         pub_cloud_clusters
           (sensor_msgs.mkPointCloud2 (sensor_msgs.header lidar_points)
              (fst (segmented_of (params w) lidar_points)));
         call_lookupTransform (bbox_target_frame_ (node w))
           (std_msgs.frame_id (sensor_msgs.header lidar_points)) ]
       ++ rest)
    /\ forall ex,
         tf2_buffer w (bbox_target_frame_ (node w))
           (std_msgs.frame_id (sensor_msgs.header lidar_points)) = inr ex ->
         rest = [ROS_WARN (what ex)].
Proof.
  exact (frame_begins doTransform lidar_points w).
Qed.

Lemma clouds_go_out_before_lookup_witness :
  exists rest,
    added (started test_config buffer_empty)
      (after_frame (obstacle_detector := test_detector) translate
         (frame_of [origin]) (started test_config buffer_empty))
      (before_lookup (obstacle_detector := test_detector)
         (started test_config buffer_empty) (frame_of [origin]) ++ rest)
    /\ rest = [ROS_WARN "frame does not exist"].
Proof.
  destruct (clouds_go_out_before_lookup (D := test_detector) translate
              (frame_of [origin]) (started test_config buffer_empty))
    as (rest & Hadded & Hrest).
  exists rest. split; [exact Hadded|].
  apply (Hrest (TransformException "frame does not exist") eq_refl).
Defined.

(** C8: the first loop of the callback makes one box for every cluster
    and appends it to the current boxes, in order: the [k]-th cluster is
    fitted by one call of the principal-axis fitter when [USE_PCA_BOX]
    holds and of the axis-aligned fitter otherwise, and the call is given
    the value the counter has at that turn.  In a frame the loop runs
    over the clusters the clustering call returned, and its boxes are the
    frame's boxes. *)
Theorem one_box_per_cluster {D : ObstacleDetector}
  (clusters : list pcl.PointCloud) (w : World) :
  fst (for_each clusters make_box w) = Normal tt
  /\ (forall doTransform lidar_points t,
        tf2_buffer w (bbox_target_frame_ (node w))
          (std_msgs.frame_id (sensor_msgs.header lidar_points)) = inl t ->
        prev_boxes_ (node (after_frame doTransform lidar_points w))
        = tracked (params w) (prev_boxes_ (node w))
            (curr_boxes_
               (node (snd (for_each (clusters_of (params w) lidar_points) make_box w)))))
  /\ exists boxes calls,
       curr_boxes_ (node (snd (for_each clusters make_box w)))
       = curr_boxes_ (node w) ++ boxes
       /\ added w (snd (for_each clusters make_box w)) calls
       /\ List.length boxes = List.length clusters
       /\ List.length calls = List.length clusters
       /\ forall k cluster,
            nth_error clusters k = Some cluster ->
            let i := counter_after k (obstacle_id_ (node w)) in
            nth_error boxes k
            = Some (if USE_PCA_BOX (params w)
                    then pcaBoundingBox cluster i
                    else axisAlignedBoundingBox cluster i)
            /\ nth_error calls k
               = Some (if USE_PCA_BOX (params w)
                       then call_pcaBoundingBox cluster i
                       else call_axisAlignedBoundingBox cluster i).
Proof.
  rewrite !first_loop_runs. split; [reflexivity|]. split.
  { intros doTransform lidar_points t H.
    rewrite first_loop_runs, (node_after_lookup doTransform _ _ _ H). reflexivity. }
  exists (fitted (params w) clusters (obstacle_id_ (node w))),
         (fit_calls (params w) clusters (obstacle_id_ (node w))).
  repeat split.
  - apply fitted_length.
  - apply fit_calls_length.
  - apply (fitted_nth _ _ _ _ _ H).
  - apply (fit_calls_nth _ _ _ _ _ H).
Qed.

Lemma one_box_per_cluster_witness :
  exists boxes,
    curr_boxes_
      (node (snd (for_each [[origin]; [far_away]]
                    (make_box (obstacle_detector := test_detector))
                    (started test_config buffer_ready))))
    = curr_boxes_ (node (started test_config buffer_ready)) ++ boxes
    /\ nth_error boxes 1 = Some (bounding_box [far_away] 1).
Proof.
  destruct (one_box_per_cluster (D := test_detector) [[origin]; [far_away]]
              (started test_config buffer_ready))
    as (_ & _ & boxes & calls & Hboxes & _ & _ & _ & Hnth).
  exists boxes. split; [exact Hboxes|].
  apply (Hnth 1%nat [far_away] eq_refl).
Defined.

(** C10: whatever the parameters are, and so whatever configuration
    snapshot has been loaded, a frame calls the segmentation exactly
    once, with an iteration budget of 30. *)
Theorem segmentation_budget_is_thirty {D : ObstacleDetector}
  (doTransform : geometry_msgs.Pose -> geometry_msgs.TransformStamped -> geometry_msgs.Pose)
  (lidar_points : sensor_msgs.PointCloud2) (w : World)
  (config : obstacle_detector_Config) (level : Z) :
  (exists t, added w (after_frame doTransform lidar_points w) t /\ budgets t = [30])
  /\ (exists t,
        added (with_params w (dynamicParamCallback config level (params w)))
          (after_frame doTransform lidar_points
             (with_params w (dynamicParamCallback config level (params w)))) t
        /\ budgets t = [30]).
Proof.
  assert (Hall : forall w0, exists t,
             added w0 (after_frame doTransform lidar_points w0) t /\ budgets t = [30]).
  { intros w0. unfold added, after_frame.
    destruct (tf2_buffer w0 (bbox_target_frame_ (node w0))
                (std_msgs.frame_id (sensor_msgs.header lidar_points))) as [t|ex] eqn:H.
    - rewrite (callback_lookup_succeeds doTransform _ _ _ H).
      eexists. split; [reflexivity|].
      rewrite !budgets_app, fit_calls_budgets.
      unfold tracking_calls. destruct (USE_TRACKING (params w0)); reflexivity.
    - rewrite (callback_lookup_fails doTransform _ _ _ H).
      eexists. split; reflexivity. }
  split; apply Hall.
Qed.

(** C9, as stated, fails for a box whose id does not fit the unsigned
    32-bit id field of the two messages.  After 2^32 frames with one
    obstacle each and tracking off the counter is at 2^32; the box of the
    next frame is made with the id 2^32, and it is published with the
    label 0 in the bounding-box array and with the id 0 in the
    detected-object array. *)
Lemma published_id_is_cut_to_32_bits :
  reachable (obstacle_detector := test_detector) translate untracked_run
  /\ map id (prev_boxes_
               (node (after_frame (obstacle_detector := test_detector) translate
                        (frame_of [origin]) untracked_run))) = [2 ^ 32]
  /\ exists jsk_bboxes autoware_objects,
       In (pub_jsk_bboxes jsk_bboxes)
          (trace (after_frame (obstacle_detector := test_detector) translate
                    (frame_of [origin]) untracked_run))
       /\ In (pub_autoware_objects autoware_objects)
            (trace (after_frame (obstacle_detector := test_detector) translate
                      (frame_of [origin]) untracked_run))
       /\ map jsk_recognition_msgs.label (jsk_recognition_msgs.boxes jsk_bboxes) = [0]
       /\ map autoware_msgs.id (autoware_msgs.objects autoware_objects) = [0].
Proof.
  destruct untracked_run_state as (Hp & Hb & Hid & Hf & Hc).
  assert (H : tf2_buffer untracked_run (bbox_target_frame_ (node untracked_run))
                (std_msgs.frame_id (sensor_msgs.header (frame_of [origin])))
              = inl base_link_transform)
    by (rewrite Hb; reflexivity).
  assert (Hoff : USE_TRACKING (params (started untracked_config buffer_ready)) = false)
    by (vm_compute; reflexivity).
  assert (Hboxes : frame_boxes (obstacle_detector := test_detector) untracked_run
                     (frame_of [origin])
                   = [bounding_box [origin] (2 ^ 32)]).
  { unfold frame_boxes, made_boxes, tracked. rewrite Hp, Hc, Hid, Hoff.
    vm_compute. reflexivity. }
  split; [unfold untracked_run; apply frames_reachable, reachable_constructed|].
  split.
  - rewrite (node_after_lookup (obstacle_detector := test_detector) translate _ _ _ H).
    cbn [prev_boxes_]. rewrite Hboxes. reflexivity.
  - exists (jsk_array translate untracked_run (frame_of [origin]) base_link_transform
              (frame_boxes (obstacle_detector := test_detector) untracked_run
                 (frame_of [origin]))),
           (autoware_array translate untracked_run (frame_of [origin])
              base_link_transform
              (frame_boxes (obstacle_detector := test_detector) untracked_run
                 (frame_of [origin]))).
    unfold after_frame.
    rewrite (callback_lookup_succeeds (obstacle_detector := test_detector)
               translate _ _ _ H).
    cbn [snd trace].
    split; [do 4 (apply in_or_app; right); left; reflexivity|].
    split; [do 4 (apply in_or_app; right); right; left; reflexivity|].
    rewrite jsk_array_labels, autoware_array_ids, Hboxes.
    split; vm_compute; reflexivity.
Qed.

(** C9, amended: a serialised box carries the pose it was given (in the
    callback, the box's pose moved by the looked-up transform), the three
    components of the box's dimension, and the box's id converted to the
    unsigned 32-bit id field of the message, that is the id modulo 2^32,
    which is the id itself whenever it lies between 0 and 2^32 - 1; the
    detected object's label is "unknown" and its score 1.0, as is the
    value of the bounding box. *)
Theorem serialised_box_carries_box
  (bbox_target_frame : string) (box : Box) (pose_transformed : geometry_msgs.Pose) :
  let jsk_bbox := transformJskBbox bbox_target_frame box pose_transformed in
  let autoware_object := transformAutowareObject bbox_target_frame box pose_transformed in
  jsk_recognition_msgs.pose jsk_bbox = pose_transformed
  /\ geometry_msgs.vx (jsk_recognition_msgs.dimensions jsk_bbox) = v3_0 (dimension box)
  /\ geometry_msgs.vy (jsk_recognition_msgs.dimensions jsk_bbox) = v3_1 (dimension box)
  /\ geometry_msgs.vz (jsk_recognition_msgs.dimensions jsk_bbox) = v3_2 (dimension box)
  /\ jsk_recognition_msgs.label jsk_bbox = uint32_of (id box)
  /\ jsk_recognition_msgs.value jsk_bbox = 1%float
  /\ autoware_msgs.pose autoware_object = pose_transformed
  /\ geometry_msgs.vx (autoware_msgs.dimensions autoware_object) = v3_0 (dimension box)
  /\ geometry_msgs.vy (autoware_msgs.dimensions autoware_object) = v3_1 (dimension box)
  /\ geometry_msgs.vz (autoware_msgs.dimensions autoware_object) = v3_2 (dimension box)
  /\ autoware_msgs.id autoware_object = uint32_of (id box)
  /\ autoware_msgs.label autoware_object = "unknown"%string
  /\ autoware_msgs.score autoware_object = 1%float
  /\ (0 <= id box < 2 ^ 32 ->
      jsk_recognition_msgs.label jsk_bbox = id box
      /\ autoware_msgs.id autoware_object = id box).
Proof.
  cbn. repeat (split; [reflexivity|]).
  intros H. unfold uint32_of. rewrite Z.mod_small by exact H.
  split; reflexivity.
Qed.

Lemma serialised_box_carries_box_witness :
  0 <= id (bounding_box [origin; far_away] 7) < 2 ^ 32
  /\ autoware_msgs.id
       (transformAutowareObject "base_link" (bounding_box [origin; far_away] 7)
          (translate (pose_of_box (bounding_box [origin; far_away] 7))
             base_link_transform)) = 7
  /\ jsk_recognition_msgs.label
       (transformJskBbox "base_link" (bounding_box [origin; far_away] 7)
          (translate (pose_of_box (bounding_box [origin; far_away] 7))
             base_link_transform)) = 7.
Proof.
  assert (H : 0 <= id (bounding_box [origin; far_away] 7) < 2 ^ 32) by (cbn; lia).
  split; [exact H|].
  destruct (serialised_box_carries_box "base_link" (bounding_box [origin; far_away] 7)
              (translate (pose_of_box (bounding_box [origin; far_away] 7))
                 base_link_transform))
    as (_ & _ & _ & _ & _ & _ & _ & _ & _ & _ & _ & _ & _ & Hid).
  destruct (Hid H) as [Hlabel Hobject].
  split; [exact Hobject | exact Hlabel].
Defined.

(** C5, as stated, fails: the snapshot [bad_config] is invalid (two
    thresholds are not positive and the minimum cluster size 10 is above
    the maximum 5), yet the callback replaces the parameters by its
    values, and the next frame hands them to the pipeline. *)
Lemma invalid_config_is_loaded :
  valid_config bad_config = false
  /\ dynamicParamCallback bad_config 0 (dynamicParamCallback test_config 0 zero_params)
     <> dynamicParamCallback test_config 0 zero_params
  /\ CLUSTER_MIN_SIZE (dynamicParamCallback bad_config 0
                         (dynamicParamCallback test_config 0 zero_params)) = 10
  /\ CLUSTER_MAX_SIZE (dynamicParamCallback bad_config 0
                         (dynamicParamCallback test_config 0 zero_params)) = 5
  /\ GROUND_THRESH (dynamicParamCallback bad_config 0
                      (dynamicParamCallback test_config 0 zero_params)) = (-1)%float
  /\ In (call_clustering [origin] 0 10 5)
        (trace (after_frame (obstacle_detector := test_detector) translate
                  (frame_of [origin])
                  (with_params (started test_config buffer_ready)
                     (dynamicParamCallback bad_config 0
                        (params (started test_config buffer_ready)))))).
Proof.
  split; [vm_compute; reflexivity|].
  split; [intros H; apply (f_equal CLUSTER_MAX_SIZE) in H; vm_compute in H; discriminate|].
  split; [vm_compute; reflexivity|].
  split; [vm_compute; reflexivity|].
  split; [vm_compute; reflexivity|].
  vm_compute. tauto.
Qed.

(** C5, amended: the callback accepts every snapshot, valid or not.  Each
    of the eleven parameters takes the snapshot's value (a real one
    rounded to single precision, the two corners of the region of
    interest with 1 as fourth component), whatever the parameters were
    before, and the next frame passes them on to the pipeline as they
    are: the voxel size and both corners to the filter, the ground
    threshold to the segmentation, the cluster threshold and the two
    cluster sizes to the clustering, and, when the lookup yields a
    transform, the fitter flag to the choice of the fitter and the
    tracking flag and the two tracking thresholds to the tracking
    step. *)
Theorem every_config_is_loaded {D : ObstacleDetector}
  (doTransform : geometry_msgs.Pose -> geometry_msgs.TransformStamped -> geometry_msgs.Pose)
  (config : obstacle_detector_Config) (level : Z) (w : World)
  (lidar_points : sensor_msgs.PointCloud2) :
  let p := dynamicParamCallback config level (params w) in
  let roi_min :=
    mkVector4f (float_of_double (roi_min_x config)) (float_of_double (roi_min_y config))
      (float_of_double (roi_min_z config)) 1%float in
  let roi_max :=
    mkVector4f (float_of_double (roi_max_x config)) (float_of_double (roi_max_y config))
      (float_of_double (roi_max_z config)) 1%float in
  let filtered :=
    filterCloud (fromROSMsg lidar_points)
      (float_of_double (voxel_grid_size config)) roi_min roi_max in
  let segmented :=
    segmentPlane filtered 30 (float_of_double (ground_threshold config)) in
  let clusters :=
    clustering (fst segmented) (float_of_double (cluster_threshold config))
      (cluster_min_size config) (cluster_max_size config) in
  let made :=
    curr_boxes_ (node w)
    ++ fitted p clusters (obstacle_id_ (node w)) in
  USE_PCA_BOX p = use_pca_box config
  /\ USE_TRACKING p = use_tracking config
  /\ VOXEL_GRID_SIZE p = float_of_double (voxel_grid_size config)
  /\ ROI_MAX_POINT p = roi_max
  /\ ROI_MIN_POINT p = roi_min
  /\ GROUND_THRESH p = float_of_double (ground_threshold config)
  /\ CLUSTER_THRESH p = float_of_double (cluster_threshold config)
  /\ CLUSTER_MIN_SIZE p = cluster_min_size config
  /\ CLUSTER_MAX_SIZE p = cluster_max_size config
  /\ DISPLACEMENT_THRESH p = float_of_double (displacement_threshold config)
  /\ IOU_THRESH p = float_of_double (iou_threshold config)
  /\ exists rest,
       added (with_params w p) (after_frame doTransform lidar_points (with_params w p))
         ([ ROS_INFO "lidar points recieved";
            call_filterCloud (fromROSMsg lidar_points)
              (float_of_double (voxel_grid_size config)) roi_min roi_max;
            call_segmentPlane filtered 30 (float_of_double (ground_threshold config));
            call_clustering (fst segmented) (float_of_double (cluster_threshold config))
              (cluster_min_size config) (cluster_max_size config);
            pub_cloud_ground
              (sensor_msgs.mkPointCloud2 (sensor_msgs.header lidar_points) (snd segmented));
            pub_cloud_clusters
              (sensor_msgs.mkPointCloud2 (sensor_msgs.header lidar_points) (fst segmented));
            call_lookupTransform (bbox_target_frame_ (node w))
              (std_msgs.frame_id (sensor_msgs.header lidar_points)) ]
          ++ rest)
       /\ forall t,
            tf2_buffer w (bbox_target_frame_ (node w))
              (std_msgs.frame_id (sensor_msgs.header lidar_points)) = inl t ->
            exists publications,
              rest
              = map (fun kc =>
                       if use_pca_box config
                       then call_pcaBoundingBox (snd kc)
                              (counter_after (fst kc) (obstacle_id_ (node w)))
                       else call_axisAlignedBoundingBox (snd kc)
                              (counter_after (fst kc) (obstacle_id_ (node w))))
                  (indexed clusters)
                ++ (if use_tracking config
                    then [call_obstacleTracking (prev_boxes_ (node w)) made
                            (float_of_double (displacement_threshold config))
                            (float_of_double (iou_threshold config))]
                    else [])
                ++ publications
              /\ prev_boxes_
                   (node (after_frame doTransform lidar_points (with_params w p)))
                 = (if use_tracking config
                    then obstacleTracking (prev_boxes_ (node w)) made
                           (float_of_double (displacement_threshold config))
                           (float_of_double (iou_threshold config))
                    else made).
Proof.
  intros p roi_min roi_max filtered segmented clusters made.
  repeat (split; [reflexivity|]).
  unfold added, after_frame.
  destruct (tf2_buffer w (bbox_target_frame_ (node w))
              (std_msgs.frame_id (sensor_msgs.header lidar_points))) as [t|ex] eqn:H.
  - rewrite (callback_lookup_succeeds doTransform lidar_points (with_params w p) t H).
    cbn [snd trace node prev_boxes_ with_params].
    eexists. split; [reflexivity|].
    intros t' _. eexists. split.
    + rewrite fit_calls_indexed. reflexivity.
    + reflexivity.
  - rewrite (callback_lookup_fails doTransform lidar_points (with_params w p) ex H).
    cbn [snd trace with_trace with_params].
    eexists. split; [reflexivity|]. intros t' [=].
Qed.



(** C3: in a frame processed with [USE_TRACKING] false the tracker is not
    called, and the only boxes published are the boxes the fitter
    returned for the frame's clusters, in order: each published box and
    object carries the id its box left the fitter with (as the unsigned
    32-bit field of the message holds it, hence unchanged when the id
    fits 32 bits), and these boxes become the previous boxes. *)
Theorem tracking_disabled_keeps_fitted_ids {D : ObstacleDetector}
  (doTransform : geometry_msgs.Pose -> geometry_msgs.TransformStamped -> geometry_msgs.Pose)
  (lidar_points : sensor_msgs.PointCloud2) (w : World) :
  reachable doTransform w ->
  USE_TRACKING (params w) = false ->
  let made :=
    fitted (params w) (clusters_of (params w) lidar_points) (obstacle_id_ (node w)) in
  exists t,
    added w (after_frame doTransform lidar_points w) t
    /\ existsb is_tracking_call t = false
    /\ (forall e, In e t -> is_box_publication e = true ->
        exists tr,
          tf2_buffer w (bbox_target_frame_ (node w))
            (std_msgs.frame_id (sensor_msgs.header lidar_points)) = inl tr
          /\ (e = pub_jsk_bboxes (jsk_array doTransform w lidar_points tr made)
              \/ e = pub_autoware_objects (autoware_array doTransform w lidar_points tr made)))
    /\ (forall tr,
          tf2_buffer w (bbox_target_frame_ (node w))
            (std_msgs.frame_id (sensor_msgs.header lidar_points)) = inl tr ->
          In (pub_jsk_bboxes (jsk_array doTransform w lidar_points tr made)) t
          /\ In (pub_autoware_objects (autoware_array doTransform w lidar_points tr made)) t
          /\ prev_boxes_ (node (after_frame doTransform lidar_points w)) = made)
    /\ (forall tr,
          map jsk_recognition_msgs.label
            (jsk_recognition_msgs.boxes (jsk_array doTransform w lidar_points tr made))
          = map (fun b => uint32_of (id b)) made
          /\ map autoware_msgs.id
               (autoware_msgs.objects (autoware_array doTransform w lidar_points tr made))
             = map (fun b => uint32_of (id b)) made)
    /\ (Forall (fun b => 0 <= id b < 2 ^ 32) made ->
        map (fun b => uint32_of (id b)) made = map id made).
Proof.
  intros Hreach Hoff made.
  destruct (reachable_idle doTransform w Hreach) as [Hcurr _].
  assert (Hboxes : frame_boxes w lidar_points = made).
  { unfold frame_boxes, tracked, made_boxes. rewrite Hoff, Hcurr. reflexivity. }
  assert (Hmade : made_boxes w lidar_points = made).
  { unfold made_boxes. rewrite Hcurr. reflexivity. }
  unfold added, after_frame.
  destruct (tf2_buffer w (bbox_target_frame_ (node w))
              (std_msgs.frame_id (sensor_msgs.header lidar_points))) as [t|ex] eqn:H.
  - rewrite (callback_lookup_succeeds doTransform _ _ _ H).
    cbn [snd trace node prev_boxes_]. rewrite Hboxes.
    unfold tracking_calls. rewrite Hoff. cbn [app].
    eexists. split; [reflexivity|]. split; [|split; [|split; [|split]]].
    + apply existsb_app_false; [reflexivity|].
      apply existsb_app_false; [apply fit_calls_no_tracking | reflexivity].
    + intros e He Hpub. exists t. split; [reflexivity|].
      apply in_app_or in He. destruct He as [He|He].
      { rewrite <- (app_nil_r (before_lookup w lidar_points)) in He.
        rewrite (existsb_false_In _ _ e
                   (before_lookup_no_publication w lidar_points [] eq_refl) He) in Hpub.
        discriminate. }
      apply in_app_or in He. destruct He as [He|He].
      { rewrite (existsb_false_In _ _ e (fit_calls_no_publication _ _ _) He) in Hpub.
        discriminate. }
      destruct He as [<-|[<-|[]]]; [left | right]; reflexivity.
    + intros tr [= <-]. repeat split.
      * apply in_or_app. right. apply in_or_app. right. left. reflexivity.
      * apply in_or_app. right. apply in_or_app. right. right. left. reflexivity.
    + intros tr. split; [apply jsk_array_labels | apply autoware_array_ids].
    + apply uint32_of_ids.
  - rewrite (callback_lookup_fails doTransform _ _ _ H). cbn [snd trace with_trace].
    eexists. split; [reflexivity|]. split; [|split; [|split; [|split]]].
    + reflexivity.
    + intros e He Hpub.
      rewrite (existsb_false_In _ _ e
                 (before_lookup_no_publication w lidar_points [ROS_WARN (what ex)] eq_refl)
                 He) in Hpub.
      discriminate.
    + intros tr [=].
    + intros tr. split; [apply jsk_array_labels | apply autoware_array_ids].
    + apply uint32_of_ids.
Qed.

Lemma tracking_disabled_keeps_fitted_ids_witness :
  reachable (obstacle_detector := test_detector) translate
    (started untracked_config buffer_ready)
  /\ USE_TRACKING (params (started untracked_config buffer_ready)) = false
  /\ exists t,
       added (started untracked_config buffer_ready)
         (after_frame (obstacle_detector := test_detector) translate
            (frame_of [origin; far_away]) (started untracked_config buffer_ready)) t
       /\ existsb is_tracking_call t = false
       /\ In (pub_jsk_bboxes
                (jsk_array translate (started untracked_config buffer_ready)
                   (frame_of [origin; far_away]) base_link_transform
                   [bounding_box [origin] 0; bounding_box [far_away] 1])) t.
Proof.
  assert (Hreach : reachable (obstacle_detector := test_detector) translate
                     (started untracked_config buffer_ready))
    by apply reachable_constructed.
  split; [exact Hreach|]. split; [reflexivity|].
  destruct (tracking_disabled_keeps_fitted_ids (D := test_detector) translate
              (frame_of [origin; far_away]) (started untracked_config buffer_ready)
              Hreach eq_refl)
    as (t & Hadded & Hquiet & _ & Hout & _).
  exists t. split; [exact Hadded|]. split; [exact Hquiet|].
  apply (Hout base_link_transform eq_refl).
Defined.

(** C7, as stated, fails once the counter has been reset.  After 2^64
    frames with one obstacle at the origin, tracked all along under the
    id 0, the counter is 0 again; in the next frame a new obstacle far
    away is given the provisional id 0, the obstacle at the origin is
    matched and keeps its id 0, and the frame's two boxes, published and
    kept as the previous boxes, both carry the id 0. *)
Lemma ids_repeat_after_counter_reset :
  DetectorSpec test_detector
  /\ reachable (obstacle_detector := test_detector) translate long_run
  /\ map id (prev_boxes_
               (node (after_frame (obstacle_detector := test_detector) translate
                        (frame_of [far_away; origin]) long_run))) = [0; 0]
  /\ ~ distinct_ids (prev_boxes_
                       (node (after_frame (obstacle_detector := test_detector) translate
                                (frame_of [far_away; origin]) long_run)))
  /\ exists msg,
       In (pub_jsk_bboxes msg)
          (trace (after_frame (obstacle_detector := test_detector) translate
                    (frame_of [far_away; origin]) long_run))
       /\ map jsk_recognition_msgs.label (jsk_recognition_msgs.boxes msg) = [0; 0].
Proof.
  destruct long_run_state as (Hp & Hb & Hn).
  assert (H : tf2_buffer long_run (bbox_target_frame_ (node long_run))
                (std_msgs.frame_id (sensor_msgs.header (frame_of [far_away; origin])))
              = inl base_link_transform)
    by (rewrite Hb; reflexivity).
  assert (Hboxes : map id (frame_boxes (obstacle_detector := test_detector) long_run
                             (frame_of [far_away; origin])) = [0; 0]).
  { rewrite (frame_boxes_of_parts (D := test_detector) long_run
               (mkWorld (params (started test_config buffer_ready))
                  (mkNode 0 "base_link" [bounding_box [origin] 0] []) buffer_ready [])
               (frame_of [far_away; origin]) Hp Hn).
    vm_compute. reflexivity. }
  assert (Hids : map id (prev_boxes_
                   (node (after_frame (obstacle_detector := test_detector) translate
                            (frame_of [far_away; origin]) long_run))) = [0; 0]).
  { rewrite (node_after_lookup (obstacle_detector := test_detector) translate _ _ _ H).
    exact Hboxes. }
  split; [exact test_detector_spec|]. split; [|split; [|split]].
  - unfold long_run. apply frames_reachable, reachable_constructed.
  - exact Hids.
  - unfold distinct_ids. rewrite Hids. intros Hnd.
    inversion Hnd as [|? ? Hnot _]. apply Hnot. left. reflexivity.
  - exists (jsk_array translate long_run
              (frame_of [far_away; origin]) base_link_transform
              (frame_boxes (obstacle_detector := test_detector) long_run
                 (frame_of [far_away; origin]))).
    split.
    + unfold after_frame.
      rewrite (callback_lookup_succeeds (obstacle_detector := test_detector)
                 translate _ _ _ H).
      cbn [snd trace].
      do 4 (apply in_or_app; right). left. reflexivity.
    + rewrite jsk_array_labels.
      rewrite <- (uint32_of_ids
                    (frame_boxes (obstacle_detector := test_detector) long_run
                       (frame_of [far_away; origin]))) in Hboxes.
      * exact Hboxes.
      * clear Hids. revert Hboxes.
        generalize (frame_boxes (obstacle_detector := test_detector) long_run
                      (frame_of [far_away; origin])).
        intros l Hl. apply Forall_forall. intros b Hin.
        apply (in_map id) in Hin. rewrite Hl in Hin.
        destruct Hin as [<-|[<-|[]]]; lia.
Qed.

(** C7, amended: as long as the counter has not been reset (the frames so
    far, and this one, have not taken it past [SIZE_MAX]), the ids of the
    current boxes are pairwise distinct after every turn of the
    box-making loop, after the tracking step, and when they have become
    the previous boxes at the end of the frame.  The fitters are taken to
    assign the id they are given and the tracker to reassign ids one to
    one, as the spec says. *)
Theorem ids_distinct_until_counter_reset {D : ObstacleDetector} {S : DetectorSpec D}
  (doTransform : geometry_msgs.Pose -> geometry_msgs.TransformStamped -> geometry_msgs.Pose)
  (lidar_points : sensor_msgs.PointCloud2) (w : World) :
  unwrapped doTransform w ->
  fits w lidar_points ->
  (forall t,
     tf2_buffer w (bbox_target_frame_ (node w))
       (std_msgs.frame_id (sensor_msgs.header lidar_points)) = inl t ->
     (forall k,
        distinct_ids
          (curr_boxes_
             (node (snd (for_each (firstn k (clusters_of (params w) lidar_points))
                           make_box w)))))
     /\ distinct_ids
          (tracked (params w) (prev_boxes_ (node w))
             (curr_boxes_
                (node (snd (for_each (clusters_of (params w) lidar_points) make_box w))))))
  /\ distinct_ids (prev_boxes_ (node (after_frame doTransform lidar_points w)))
  /\ curr_boxes_ (node (after_frame doTransform lidar_points w)) = [].
Proof.
  intros Hw Hfit.
  pose proof (unwrapped_tidy doTransform w Hw) as Htidy.
  split.
  - intros t H. unfold fits, boxes_due in Hfit. rewrite H in Hfit.
    destruct Htidy as (Hcurr & Hprev & Hlow & Hrange).
    split.
    + intros k. rewrite first_loop_runs. cbn [snd node curr_boxes_].
      rewrite Hcurr. cbn [app].
      apply fitted_ids; [apply Hrange|].
      rewrite length_firstn. lia.
    + rewrite first_loop_runs. cbn [snd node curr_boxes_].
      apply (frame_boxes_ids w lidar_points); [|exact Hfit].
      exact (conj Hcurr (conj Hprev (conj Hlow Hrange))).
  - destruct (tidy_after_frame doTransform w lidar_points Htidy Hfit) as (Hc & Hd & _).
    split; assumption.
Qed.

Lemma ids_distinct_until_counter_reset_witness :
  unwrapped (obstacle_detector := test_detector) translate
    (after_frame (obstacle_detector := test_detector) translate
       (frame_of [origin]) (started test_config buffer_ready))
  /\ fits (obstacle_detector := test_detector)
       (after_frame (obstacle_detector := test_detector) translate
          (frame_of [origin]) (started test_config buffer_ready))
       (frame_of [far_away; origin])
  /\ distinct_ids
       (prev_boxes_
          (node (after_frame (obstacle_detector := test_detector) translate
                   (frame_of [far_away; origin])
                   (after_frame (obstacle_detector := test_detector) translate
                      (frame_of [origin]) (started test_config buffer_ready))))).
Proof.
  assert (Hfit0 : fits (obstacle_detector := test_detector)
                    (started test_config buffer_ready) (frame_of [origin]))
    by (unfold fits; vm_compute; discriminate).
  assert (Hw : unwrapped (obstacle_detector := test_detector) translate
                 (after_frame (obstacle_detector := test_detector) translate
                    (frame_of [origin]) (started test_config buffer_ready)))
    by (apply unwrapped_frame; [apply unwrapped_constructed | exact Hfit0]).
  assert (Hfit : fits (obstacle_detector := test_detector)
                   (after_frame (obstacle_detector := test_detector) translate
                      (frame_of [origin]) (started test_config buffer_ready))
                   (frame_of [far_away; origin]))
    by (unfold fits; vm_compute; discriminate).
  split; [exact Hw|]. split; [exact Hfit|].
  apply (ids_distinct_until_counter_reset (D := test_detector) (S := test_detector_spec)
           translate (frame_of [far_away; origin]) _ Hw Hfit).
Defined.

(** * More about the node *)

(** ** Helpers *)

Lemma count_app (s : Stage) (t t' : list Event) :
  count s (t ++ t') = (count s t + count s t')%nat.
Proof. unfold count. rewrite filter_app, length_app. reflexivity. Qed.

Lemma fit_calls_count {D : ObstacleDetector} p cs i (s : Stage) :
  count s (fit_calls p cs i)
  = if same_stage fitting s then List.length cs else 0%nat.
Proof.
  revert i. induction cs as [|c cs IH]; intros i.
  - destruct (same_stage fitting s); reflexivity.
  - change (fit_calls p (c :: cs) i)
      with ([fit_call p c i] ++ fit_calls p cs (next_obstacle_id i)).
    rewrite count_app, IH. unfold fit_call.
    destruct (USE_PCA_BOX p); destruct s; reflexivity.
Qed.

Lemma fitter_ids_app (t t' : list Event) :
  fitter_ids (t ++ t') = fitter_ids t ++ fitter_ids t'.
Proof. unfold fitter_ids. apply flat_map_app. Qed.

Lemma counter_after_mod (n : nat) (i : Z) :
  0 <= i <= SIZE_MAX -> counter_after n i = (i + Z.of_nat n) mod 2 ^ 64.
Proof.
  revert i. induction n as [|n IH]; intros i Hi.
  - cbn [counter_after]. rewrite Z.add_0_r. symmetry. apply Z.mod_small.
    unfold SIZE_MAX in Hi. lia.
  - cbn [counter_after]. rewrite IH by (apply next_obstacle_id_range, Hi).
    rewrite next_obstacle_id_mod by exact Hi.
    rewrite Zplus_mod_idemp_l. f_equal. lia.
Qed.

Lemma fit_calls_ids {D : ObstacleDetector} p cs i :
  0 <= i <= SIZE_MAX ->
  fitter_ids (fit_calls p cs i)
  = map (fun k => (i + Z.of_nat k) mod 2 ^ 64) (seq 0 (List.length cs)).
Proof.
  revert i. induction cs as [|c cs IH]; intros i Hi; [reflexivity|].
  change (fit_calls p (c :: cs) i)
    with ([fit_call p c i] ++ fit_calls p cs (next_obstacle_id i)).
  rewrite fitter_ids_app. cbn [List.length seq map].
  rewrite IH by (apply next_obstacle_id_range, Hi).
  rewrite <- seq_shift, map_map.
  replace (fitter_ids [fit_call p c i]) with [(i + Z.of_nat 0) mod 2 ^ 64].
  - cbn [app]. f_equal. apply map_ext. intros k.
    rewrite next_obstacle_id_mod by exact Hi.
    rewrite Zplus_mod_idemp_l. f_equal. lia.
  - rewrite Z.add_0_r, Z.mod_small by (unfold SIZE_MAX in Hi; lia).
    unfold fit_call. destruct (USE_PCA_BOX p); reflexivity.
Qed.

Lemma shifted_mod_injective (i a b : Z) :
  0 <= a < 2 ^ 64 -> 0 <= b < 2 ^ 64 ->
  (i + a) mod 2 ^ 64 = (i + b) mod 2 ^ 64 -> a = b.
Proof.
  intros Ha Hb H.
  pose proof (Z.div_mod (i + a) (2 ^ 64) ltac:(lia)) as Ea.
  pose proof (Z.div_mod (i + b) (2 ^ 64) ltac:(lia)) as Eb.
  rewrite H in Ea.
  assert (Hq : a - b = 2 ^ 64 * ((i + a) / 2 ^ 64 - (i + b) / 2 ^ 64)) by lia.
  assert (Hz : (i + a) / 2 ^ 64 - (i + b) / 2 ^ 64 = 0) by nia.
  lia.
Qed.

Lemma consecutive_ids_distinct (i : Z) (n : nat) :
  Z.of_nat n <= 2 ^ 64 ->
  NoDup (map (fun k => (i + Z.of_nat k) mod 2 ^ 64) (seq 0 n)).
Proof.
  intros Hn. apply NoDup_map_NoDup_ForallPairs; [|apply seq_NoDup].
  intros a b Ha Hb Hab. apply in_seq in Ha, Hb.
  apply Nat2Z.inj. apply (shifted_mod_injective i); [lia | lia | exact Hab].
Qed.

(** The members, parameters and buffer a frame leaves behind depend on
    the trace only through what is appended to it. *)
Lemma after_frame_with_trace {D : ObstacleDetector}
  (doTransform : geometry_msgs.Pose -> geometry_msgs.TransformStamped -> geometry_msgs.Pose)
  (lidar_points : sensor_msgs.PointCloud2) (w : World) (t0 : list Event) :
  node (after_frame doTransform lidar_points (with_trace w t0))
  = node (after_frame doTransform lidar_points w)
  /\ exists t,
       trace (after_frame doTransform lidar_points (with_trace w t0)) = t0 ++ t
       /\ trace (after_frame doTransform lidar_points w) = trace w ++ t.
Proof.
  unfold after_frame.
  destruct (tf2_buffer w (bbox_target_frame_ (node w))
              (std_msgs.frame_id (sensor_msgs.header lidar_points))) as [t|ex] eqn:H.
  - rewrite (callback_lookup_succeeds doTransform lidar_points (with_trace w t0) t H).
    rewrite (callback_lookup_succeeds doTransform lidar_points w t H).
    split; [reflexivity|]. eexists. split; reflexivity.
  - rewrite (callback_lookup_fails doTransform lidar_points (with_trace w t0) ex H).
    rewrite (callback_lookup_fails doTransform lidar_points w ex H).
    split; [reflexivity|]. eexists. split; reflexivity.
Qed.

Lemma arrays_same_boxes
  (doTransform : geometry_msgs.Pose -> geometry_msgs.TransformStamped -> geometry_msgs.Pose)
  w lidar_points t bs :
  Forall2 same_box
    (jsk_recognition_msgs.boxes (jsk_array doTransform w lidar_points t bs))
    (autoware_msgs.objects (autoware_array doTransform w lidar_points t bs)).
Proof.
  cbn. induction bs as [|b bs IH]; cbn; constructor.
  - repeat split.
  - exact IH.
Qed.

Lemma arrays_framed
  (doTransform : geometry_msgs.Pose -> geometry_msgs.TransformStamped -> geometry_msgs.Pose)
  w lidar_points t bs :
  framed (bbox_target_frame_ (node w))
    (pub_jsk_bboxes (jsk_array doTransform w lidar_points t bs))
  /\ framed (bbox_target_frame_ (node w))
       (pub_autoware_objects (autoware_array doTransform w lidar_points t bs)).
Proof.
  cbn. repeat split; apply Forall_forall; intros x Hx;
    apply in_map_iff in Hx; destruct Hx as (b & <- & _); reflexivity.
Qed.

Lemma fit_calls_framed {D : ObstacleDetector} f p cs i :
  Forall (framed f) (fit_calls p cs i).
Proof.
  revert i. induction cs as [|c cs IH]; intros i; cbn; constructor.
  - unfold fit_call. destruct (USE_PCA_BOX p); exact I.
  - apply IH.
Qed.

(** ** What a frame does and does not do *)

(** X1: a frame never changes the parameters, the tf2 buffer or the
    target frame; whatever it adds to the trace comes after what was
    there. *)
Theorem frame_keeps_configuration {D : ObstacleDetector}
  (doTransform : geometry_msgs.Pose -> geometry_msgs.TransformStamped -> geometry_msgs.Pose)
  (lidar_points : sensor_msgs.PointCloud2) (w : World) :
  params (after_frame doTransform lidar_points w) = params w
  /\ tf2_buffer (after_frame doTransform lidar_points w) = tf2_buffer w
  /\ bbox_target_frame_ (node (after_frame doTransform lidar_points w))
     = bbox_target_frame_ (node w)
  /\ exists t, added w (after_frame doTransform lidar_points w) t.
Proof.
  unfold after_frame, added.
  destruct (tf2_buffer w (bbox_target_frame_ (node w))
              (std_msgs.frame_id (sensor_msgs.header lidar_points))) as [t|ex] eqn:H.
  - rewrite (callback_lookup_succeeds doTransform _ _ _ H).
    repeat split. eexists. reflexivity.
  - rewrite (callback_lookup_fails doTransform _ _ _ H).
    repeat split. eexists. reflexivity.
Qed.

(** X2: a frame moves the counter by the number of boxes it makes, modulo
    2^64: by the number of clusters when the lookup yields a transform,
    and not at all when it throws. *)
Theorem frame_advances_counter {D : ObstacleDetector}
  (doTransform : geometry_msgs.Pose -> geometry_msgs.TransformStamped -> geometry_msgs.Pose)
  (lidar_points : sensor_msgs.PointCloud2) (w : World) :
  counter_in_range w ->
  obstacle_id_ (node (after_frame doTransform lidar_points w))
  = (obstacle_id_ (node w) + Z.of_nat (boxes_due w lidar_points)) mod 2 ^ 64.
Proof.
  intros Hrange. unfold boxes_due.
  destruct (tf2_buffer w (bbox_target_frame_ (node w))
              (std_msgs.frame_id (sensor_msgs.header lidar_points))) as [t|ex] eqn:H.
  - rewrite (node_after_lookup doTransform _ _ _ H). cbn [obstacle_id_].
    apply counter_after_mod, Hrange.
  - rewrite (after_failed_lookup doTransform _ _ _ H). cbn.
    rewrite Z.add_0_r. symmetry. apply Z.mod_small.
    unfold counter_in_range, SIZE_MAX in Hrange. lia.
Qed.

Lemma frame_advances_counter_witness :
  counter_in_range
    (with_node (started test_config buffer_ready) (mkNode SIZE_MAX "base_link" [] []))
  /\ obstacle_id_
       (node (after_frame (obstacle_detector := test_detector) translate
                (frame_of [origin; far_away])
                (with_node (started test_config buffer_ready)
                   (mkNode SIZE_MAX "base_link" [] []))))
     = 1.
Proof.
  assert (H : counter_in_range
                (with_node (started test_config buffer_ready)
                   (mkNode SIZE_MAX "base_link" [] [])))
    by (unfold counter_in_range, SIZE_MAX; cbn; lia).
  split; [exact H|].
  rewrite (frame_advances_counter (D := test_detector) translate
             (frame_of [origin; far_away]) _ H).
  reflexivity.
Defined.

(** X3: the ids a frame hands to the fitter are the counter and its
    successors modulo 2^64, one per box; as long as the frame makes at
    most 2^64 boxes, no two fitter calls of the frame get the same id. *)
Theorem frame_hands_out_consecutive_ids {D : ObstacleDetector}
  (doTransform : geometry_msgs.Pose -> geometry_msgs.TransformStamped -> geometry_msgs.Pose)
  (lidar_points : sensor_msgs.PointCloud2) (w : World) :
  counter_in_range w ->
  Z.of_nat (boxes_due w lidar_points) <= 2 ^ 64 ->
  exists t,
    added w (after_frame doTransform lidar_points w) t
    /\ fitter_ids t
       = map (fun k => (obstacle_id_ (node w) + Z.of_nat k) mod 2 ^ 64)
           (seq 0 (boxes_due w lidar_points))
    /\ NoDup (fitter_ids t).
Proof.
  intros Hrange Hn.
  assert (Hids : exists t,
             added w (after_frame doTransform lidar_points w) t
             /\ fitter_ids t
                = map (fun k => (obstacle_id_ (node w) + Z.of_nat k) mod 2 ^ 64)
                    (seq 0 (boxes_due w lidar_points))).
  { unfold boxes_due, added, after_frame.
    destruct (tf2_buffer w (bbox_target_frame_ (node w))
                (std_msgs.frame_id (sensor_msgs.header lidar_points))) as [t|ex] eqn:H.
    - rewrite (callback_lookup_succeeds doTransform _ _ _ H). cbn [snd trace].
      eexists. split; [reflexivity|].
      rewrite !fitter_ids_app, (fit_calls_ids _ _ _ Hrange).
      unfold tracking_calls. destruct (USE_TRACKING (params w)); cbn;
        rewrite app_nil_r; reflexivity.
    - rewrite (callback_lookup_fails doTransform _ _ _ H). cbn [snd trace with_trace].
      eexists. split; reflexivity. }
  destruct Hids as (t & Hadded & Hids).
  exists t. split; [exact Hadded|]. split; [exact Hids|].
  rewrite Hids. apply consecutive_ids_distinct, Hn.
Qed.

Lemma frame_hands_out_consecutive_ids_witness :
  exists t,
    added (with_node (started test_config buffer_ready)
             (mkNode SIZE_MAX "base_link" [] []))
      (after_frame (obstacle_detector := test_detector) translate
         (frame_of [origin; far_away])
         (with_node (started test_config buffer_ready)
            (mkNode SIZE_MAX "base_link" [] []))) t
    /\ fitter_ids t = [SIZE_MAX; 0].
Proof.
  destruct (frame_hands_out_consecutive_ids (D := test_detector) translate
              (frame_of [origin; far_away])
              (with_node (started test_config buffer_ready)
                 (mkNode SIZE_MAX "base_link" [] [])))
    as (t & Hadded & Hids & _).
  - unfold counter_in_range, SIZE_MAX; cbn; lia.
  - cbn. lia.
  - exists t. split; [exact Hadded|]. rewrite Hids. reflexivity.
Defined.

(** X4: a completed frame publishes the bounding-box array and the
    detected-object array last, in this order, under the same header (the
    input's, with the target frame as frame id); both have one entry per
    box, and the [k]-th entries carry the same header, pose, dimensions
    and id. *)
Theorem both_arrays_describe_the_same_boxes {D : ObstacleDetector}
  (doTransform : geometry_msgs.Pose -> geometry_msgs.TransformStamped -> geometry_msgs.Pose)
  (lidar_points : sensor_msgs.PointCloud2) (w : World)
  (t : geometry_msgs.TransformStamped) :
  tf2_buffer w (bbox_target_frame_ (node w))
    (std_msgs.frame_id (sensor_msgs.header lidar_points)) = inl t ->
  exists before jsk_bboxes autoware_objects,
    added w (after_frame doTransform lidar_points w)
      (before ++ [pub_jsk_bboxes jsk_bboxes; pub_autoware_objects autoware_objects])
    /\ jsk_recognition_msgs.array_header jsk_bboxes
       = std_msgs.set_frame_id (sensor_msgs.header lidar_points)
           (bbox_target_frame_ (node w))
    /\ autoware_msgs.array_header autoware_objects
       = jsk_recognition_msgs.array_header jsk_bboxes
    /\ List.length (jsk_recognition_msgs.boxes jsk_bboxes)
       = List.length (prev_boxes_ (node (after_frame doTransform lidar_points w)))
    /\ Forall2 same_box
         (jsk_recognition_msgs.boxes jsk_bboxes)
         (autoware_msgs.objects autoware_objects).
Proof.
  intros H. unfold added, after_frame.
  rewrite (callback_lookup_succeeds doTransform _ _ _ H). cbn [snd trace node prev_boxes_].
  exists (before_lookup w lidar_points
          ++ fit_calls (params w) (clusters_of (params w) lidar_points)
               (obstacle_id_ (node w))
          ++ tracking_calls (params w) (prev_boxes_ (node w)) (made_boxes w lidar_points)),
         (jsk_array doTransform w lidar_points t (frame_boxes w lidar_points)),
         (autoware_array doTransform w lidar_points t (frame_boxes w lidar_points)).
  split; [rewrite <- !app_assoc; reflexivity|].
  split; [reflexivity|]. split; [reflexivity|].
  split; [cbn; apply length_map | apply arrays_same_boxes].
Qed.

Lemma both_arrays_describe_the_same_boxes_witness :
  exists before jsk_bboxes autoware_objects,
    added (started test_config buffer_ready)
      (after_frame (obstacle_detector := test_detector) translate
         (frame_of [origin; far_away]) (started test_config buffer_ready))
      (before ++ [pub_jsk_bboxes jsk_bboxes; pub_autoware_objects autoware_objects])
    /\ List.length (jsk_recognition_msgs.boxes jsk_bboxes) = 2%nat
    /\ Forall2 same_box
         (jsk_recognition_msgs.boxes jsk_bboxes)
         (autoware_msgs.objects autoware_objects).
Proof.
  destruct (both_arrays_describe_the_same_boxes (D := test_detector) translate
              (frame_of [origin; far_away]) (started test_config buffer_ready)
              base_link_transform eq_refl)
    as (before & jm & am & Hadded & _ & _ & Hlen & Hsame).
  exists before, jm, am. split; [exact Hadded|]. split; [|exact Hsame].
  rewrite Hlen. reflexivity.
Defined.

(** X5: a frame whose lookup failed leaves no mark on the frames after
    it: the next frame ends with the same members, and adds the same
    events to the trace, as if the failed frame had never arrived. *)
Theorem skipped_frame_leaves_no_mark {D : ObstacleDetector}
  (doTransform : geometry_msgs.Pose -> geometry_msgs.TransformStamped -> geometry_msgs.Pose)
  (skipped next : sensor_msgs.PointCloud2) (w : World) (ex : Exception) :
  tf2_buffer w (bbox_target_frame_ (node w))
    (std_msgs.frame_id (sensor_msgs.header skipped)) = inr ex ->
  node (after_frame doTransform next (after_frame doTransform skipped w))
  = node (after_frame doTransform next w)
  /\ exists t,
       added (after_frame doTransform skipped w)
         (after_frame doTransform next (after_frame doTransform skipped w)) t
       /\ added w (after_frame doTransform next w) t.
Proof.
  intros H. rewrite (after_failed_lookup doTransform _ _ _ H).
  destruct (after_frame_with_trace doTransform next w
              (trace w ++ before_lookup w skipped ++ [ROS_WARN (what ex)]))
    as (Hnode & t & Ht & Ht').
  split; [exact Hnode|].
  exists t. split; [exact Ht | exact Ht'].
Qed.

Lemma skipped_frame_leaves_no_mark_witness :
  node (after_frame (obstacle_detector := test_detector) translate
          (frame_of [origin])
          (after_frame (obstacle_detector := test_detector) translate
             radar_frame (with_buffer (started test_config buffer_ready) buffer_lidar_only)))
  = node (after_frame (obstacle_detector := test_detector) translate
            (frame_of [origin])
            (with_buffer (started test_config buffer_ready) buffer_lidar_only)).
Proof.
  apply (skipped_frame_leaves_no_mark (D := test_detector) translate
           radar_frame (frame_of [origin])
           (with_buffer (started test_config buffer_ready) buffer_lidar_only)
           (TransformException "unknown frame") eq_refl).
Defined.

(** X6: in a completed frame with [USE_TRACKING] true the tracker is
    called exactly once: after every fitter call of the frame and before
    any box array is published, on the previous boxes as the last frames
    left them and the boxes just fitted, with the two thresholds of the
    parameters; what it returns becomes the previous boxes. *)
Theorem tracking_enabled_calls_tracker_once {D : ObstacleDetector}
  (doTransform : geometry_msgs.Pose -> geometry_msgs.TransformStamped -> geometry_msgs.Pose)
  (lidar_points : sensor_msgs.PointCloud2) (w : World)
  (t : geometry_msgs.TransformStamped) :
  reachable doTransform w ->
  USE_TRACKING (params w) = true ->
  tf2_buffer w (bbox_target_frame_ (node w))
    (std_msgs.frame_id (sensor_msgs.header lidar_points)) = inl t ->
  let made :=
    fitted (params w) (clusters_of (params w) lidar_points) (obstacle_id_ (node w)) in
  exists before after,
    added w (after_frame doTransform lidar_points w)
      (before
       ++ call_obstacleTracking (prev_boxes_ (node w)) made
            (DISPLACEMENT_THRESH (params w)) (IOU_THRESH (params w))
          :: after)
    /\ count tracking before = 0%nat
    /\ count tracking after = 0%nat
    /\ count fitting before = List.length (clusters_of (params w) lidar_points)
    /\ count fitting after = 0%nat
    /\ count jsk_publication before = 0%nat
    /\ count autoware_publication before = 0%nat
    /\ prev_boxes_ (node (after_frame doTransform lidar_points w))
       = obstacleTracking (prev_boxes_ (node w)) made
           (DISPLACEMENT_THRESH (params w)) (IOU_THRESH (params w)).
Proof.
  intros Hreach Hon H made.
  destruct (reachable_idle doTransform w Hreach) as [Hcurr _].
  assert (Hmade : made_boxes w lidar_points = made)
    by (unfold made_boxes; rewrite Hcurr; reflexivity).
  unfold added, after_frame.
  rewrite (callback_lookup_succeeds doTransform _ _ _ H). cbn [snd trace node prev_boxes_].
  unfold frame_boxes, tracked, tracking_calls. rewrite Hon, Hmade.
  exists (before_lookup w lidar_points
          ++ fit_calls (params w) (clusters_of (params w) lidar_points)
               (obstacle_id_ (node w))).
  eexists. split; [rewrite <- !app_assoc; reflexivity|].
  rewrite !count_app, !fit_calls_count. repeat split.
Qed.

Lemma tracking_enabled_calls_tracker_once_witness :
  exists before after,
    added (after_frame (obstacle_detector := test_detector) translate
             (frame_of [origin]) (started test_config buffer_ready))
      (after_frame (obstacle_detector := test_detector) translate
         (frame_of [far_away; origin])
         (after_frame (obstacle_detector := test_detector) translate
            (frame_of [origin]) (started test_config buffer_ready)))
      (before
       ++ call_obstacleTracking
            [bounding_box [origin] 0]
            [bounding_box [far_away] 1; bounding_box [origin] 2]
            0.5 0.5
          :: after)
    /\ count tracking before = 0%nat
    /\ count tracking after = 0%nat.
Proof.
  destruct (tracking_enabled_calls_tracker_once (D := test_detector) translate
              (frame_of [far_away; origin])
              (after_frame (obstacle_detector := test_detector) translate
                 (frame_of [origin]) (started test_config buffer_ready))
              base_link_transform)
    as (before & after & Hadded & Hb & Ha & _).
  - eapply reachable_step; [apply reachable_constructed | apply step_frame].
  - vm_compute. reflexivity.
  - reflexivity.
  - exists before, after. split; [|split; assumption].
    exact Hadded.
Defined.

(** X7: in every reachable world, each box array published so far names
    the node's target frame as its frame id, and so does every bounding
    box and every detected object in it. *)
Theorem published_boxes_name_target_frame {D : ObstacleDetector}
  (doTransform : geometry_msgs.Pose -> geometry_msgs.TransformStamped -> geometry_msgs.Pose)
  (w : World) :
  reachable doTransform w ->
  Forall (framed (bbox_target_frame_ (node w))) (trace w).
Proof.
  induction 1 as [f c l o b | w w' Hw IH Hstep].
  - constructor.
  - destruct Hstep as [w msg | w c l | w b]; [|exact IH|exact IH].
    unfold after_frame.
    destruct (tf2_buffer w (bbox_target_frame_ (node w))
                (std_msgs.frame_id (sensor_msgs.header msg))) as [t|ex] eqn:H.
    + rewrite (callback_lookup_succeeds doTransform _ _ _ H).
      cbn [snd trace node bbox_target_frame_].
      apply Forall_app. split; [exact IH|].
      apply Forall_app. split; [repeat constructor|].
      apply Forall_app. split; [apply fit_calls_framed|].
      apply Forall_app. split.
      * unfold tracking_calls. destruct (USE_TRACKING (params w)); repeat constructor.
      * destruct (arrays_framed doTransform w msg t (frame_boxes w msg)) as [Hj Ha].
        constructor; [exact Hj|]. constructor; [exact Ha|]. constructor.
    + rewrite (callback_lookup_fails doTransform _ _ _ H).
      cbn [snd trace node with_trace bbox_target_frame_].
      apply Forall_app. split; [exact IH|].
      apply Forall_app. split; repeat constructor.
Qed.

Lemma published_boxes_name_target_frame_witness :
  Forall (framed "base_link")
    (trace (after_frame (obstacle_detector := test_detector) translate
              (frame_of [origin; far_away]) (started test_config buffer_ready))).
Proof.
  apply (published_boxes_name_target_frame (D := test_detector) translate
           (after_frame (obstacle_detector := test_detector) translate
              (frame_of [origin; far_away]) (started test_config buffer_ready))).
  eapply reachable_step; [apply reachable_constructed | apply step_frame].
Defined.

(** X8: a completed frame without clusters calls no fitter and leaves
    the counter where it was, yet both arrays are published; the previous
    boxes become what the tracking step makes of no current boxes, and
    with [USE_TRACKING] false they are forgotten and both published
    arrays are empty. *)
Theorem frame_without_clusters {D : ObstacleDetector}
  (doTransform : geometry_msgs.Pose -> geometry_msgs.TransformStamped -> geometry_msgs.Pose)
  (lidar_points : sensor_msgs.PointCloud2) (w : World)
  (t : geometry_msgs.TransformStamped) :
  reachable doTransform w ->
  tf2_buffer w (bbox_target_frame_ (node w))
    (std_msgs.frame_id (sensor_msgs.header lidar_points)) = inl t ->
  clusters_of (params w) lidar_points = [] ->
  obstacle_id_ (node (after_frame doTransform lidar_points w)) = obstacle_id_ (node w)
  /\ prev_boxes_ (node (after_frame doTransform lidar_points w))
     = tracked (params w) (prev_boxes_ (node w)) []
  /\ (exists added_events,
        added w (after_frame doTransform lidar_points w) added_events
        /\ count fitting added_events = 0%nat
        /\ count jsk_publication added_events = 1%nat
        /\ count autoware_publication added_events = 1%nat)
  /\ (USE_TRACKING (params w) = false ->
      prev_boxes_ (node (after_frame doTransform lidar_points w)) = []
      /\ In (pub_jsk_bboxes
               (jsk_recognition_msgs.mkBoundingBoxArray
                  (std_msgs.set_frame_id (sensor_msgs.header lidar_points)
                     (bbox_target_frame_ (node w))) []))
            (trace (after_frame doTransform lidar_points w))
      /\ In (pub_autoware_objects
               (autoware_msgs.mkDetectedObjectArray
                  (std_msgs.set_frame_id (sensor_msgs.header lidar_points)
                     (bbox_target_frame_ (node w))) []))
            (trace (after_frame doTransform lidar_points w))).
Proof.
  intros Hreach H Hnone.
  destruct (reachable_idle doTransform w Hreach) as [Hcurr _].
  assert (Hmade : made_boxes w lidar_points = [])
    by (unfold made_boxes; rewrite Hcurr, Hnone; reflexivity).
  unfold added, after_frame.
  rewrite (callback_lookup_succeeds doTransform _ _ _ H).
  cbn [snd trace node prev_boxes_ obstacle_id_].
  unfold frame_boxes. rewrite Hmade, Hnone.
  split; [reflexivity|]. split; [reflexivity|]. split.
  - eexists. split; [reflexivity|].
    rewrite !count_app. unfold tracking_calls.
    destruct (USE_TRACKING (params w)); repeat split.
  - intros Hoff. unfold tracked, tracking_calls. rewrite Hoff.
    split; [reflexivity|].
    split; apply in_or_app; right; apply in_or_app; right; cbn; tauto.
Qed.

Lemma frame_without_clusters_witness :
  obstacle_id_
    (node (after_frame (obstacle_detector := test_detector) translate (frame_of [])
             (after_frame (obstacle_detector := test_detector) translate
                (frame_of [origin]) (started untracked_config buffer_ready)))) = 1
  /\ prev_boxes_
       (node (after_frame (obstacle_detector := test_detector) translate (frame_of [])
                (after_frame (obstacle_detector := test_detector) translate
                   (frame_of [origin]) (started untracked_config buffer_ready)))) = [].
Proof.
  destruct (frame_without_clusters (D := test_detector) translate (frame_of [])
              (after_frame (obstacle_detector := test_detector) translate
                 (frame_of [origin]) (started untracked_config buffer_ready))
              base_link_transform)
    as (Hid & _ & _ & Hoff).
  - eapply reachable_step; [apply reachable_constructed | apply step_frame].
  - reflexivity.
  - reflexivity.
  - split.
    + rewrite Hid. reflexivity.
    + assert (Hflag : USE_TRACKING
                        (params (after_frame (obstacle_detector := test_detector)
                                   translate (frame_of [origin])
                                   (started untracked_config buffer_ready)))
                      = false)
        by (vm_compute; reflexivity).
      exact (proj1 (Hoff Hflag)).
Defined.

(** X9: the parameters of every reachable world are those a loaded
    snapshot gave: only [dynamicParamCallback] writes them.  In
    particular the fourth component of both corners of the region of
    interest is always 1. *)
Theorem parameters_come_from_a_snapshot {D : ObstacleDetector}
  (doTransform : geometry_msgs.Pose -> geometry_msgs.TransformStamped -> geometry_msgs.Pose)
  (w : World) :
  reachable doTransform w ->
  (exists config level old, params w = dynamicParamCallback config level old)
  /\ v4_3 (ROI_MAX_POINT (params w)) = 1%float
  /\ v4_3 (ROI_MIN_POINT (params w)) = 1%float.
Proof.
  intros Hw.
  assert (Hfrom : exists config level old,
             params w = dynamicParamCallback config level old).
  { induction Hw as [f c l o b | w w' Hw IH Hstep].
    - exists c, l, o. reflexivity.
    - destruct Hstep as [w msg | w c l | w b].
      + rewrite (proj1 (params_after_frame doTransform msg w)). exact IH.
      + exists c, l, (params w). reflexivity.
      + exact IH. }
  split; [exact Hfrom|].
  destruct Hfrom as (c & l & o & ->). split; reflexivity.
Qed.

Lemma parameters_come_from_a_snapshot_witness :
  v4_3 (ROI_MAX_POINT
          (params (after_frame (obstacle_detector := test_detector) translate
                     (frame_of [origin]) (started test_config buffer_ready))))
  = 1%float.
Proof.
  apply (parameters_come_from_a_snapshot (D := test_detector) translate
           (after_frame (obstacle_detector := test_detector) translate
              (frame_of [origin]) (started test_config buffer_ready))).
  eapply reachable_step; [apply reachable_constructed | apply step_frame].
Defined.

(** X10: every frame logs its arrival, filters, segments, clusters,
    publishes the ground cloud and the obstacle cloud and looks the
    transform up exactly once each; it calls a fitter once per box it
    makes and the tracker at most once; and it ends in exactly one of
    two ways: with the warning, or with one bounding-box array and one
    detected-object array. *)
Theorem every_stage_runs_once {D : ObstacleDetector}
  (doTransform : geometry_msgs.Pose -> geometry_msgs.TransformStamped -> geometry_msgs.Pose)
  (lidar_points : sensor_msgs.PointCloud2) (w : World) :
  exists t,
    added w (after_frame doTransform lidar_points w) t
    /\ count logged_info t = 1%nat
    /\ count filtering t = 1%nat
    /\ count segmentation t = 1%nat
    /\ count clustering_stage t = 1%nat
    /\ count ground_publication t = 1%nat
    /\ count obstacle_publication t = 1%nat
    /\ count lookup t = 1%nat
    /\ count fitting t = boxes_due w lidar_points
    /\ (count tracking t <= 1)%nat
    /\ count jsk_publication t = count autoware_publication t
    /\ (count logged_warning t + count jsk_publication t = 1)%nat.
Proof.
  unfold added, after_frame, boxes_due.
  destruct (tf2_buffer w (bbox_target_frame_ (node w))
              (std_msgs.frame_id (sensor_msgs.header lidar_points))) as [t|ex] eqn:H.
  - rewrite (callback_lookup_succeeds doTransform _ _ _ H). cbn [snd trace].
    eexists. split; [reflexivity|].
    rewrite !count_app, !fit_calls_count. unfold tracking_calls.
    destruct (USE_TRACKING (params w)); cbn; repeat split; lia.
  - rewrite (callback_lookup_fails doTransform _ _ _ H). cbn [snd trace with_trace].
    eexists. split; [reflexivity|]. cbn. repeat split; lia.
Qed.

Lemma fit_calls_constant_fields {D : ObstacleDetector} p cs i :
  Forall constant_fields (fit_calls p cs i).
Proof.
  revert i. induction cs as [|c cs IH]; intros i; cbn; constructor.
  - unfold fit_call. destruct (USE_PCA_BOX p); exact I.
  - apply IH.
Qed.

Lemma arrays_constant_fields
  (doTransform : geometry_msgs.Pose -> geometry_msgs.TransformStamped -> geometry_msgs.Pose)
  w lidar_points t bs :
  constant_fields (pub_jsk_bboxes (jsk_array doTransform w lidar_points t bs))
  /\ constant_fields
       (pub_autoware_objects (autoware_array doTransform w lidar_points t bs)).
Proof.
  cbn. split; apply Forall_forall; intros x Hx;
    apply in_map_iff in Hx; destruct Hx as (b & <- & _); repeat split.
Qed.

(** X11: between callbacks the current box vector is empty, so no box of
    an earlier frame is carried into a later one: the boxes a frame's
    first loop leaves in the current vector are exactly the boxes fitted
    to that frame's clusters, one per cluster, and with [USE_TRACKING]
    false a completed frame keeps exactly that many previous boxes. *)
Theorem no_box_is_carried_over {D : ObstacleDetector}
  (doTransform : geometry_msgs.Pose -> geometry_msgs.TransformStamped -> geometry_msgs.Pose)
  (lidar_points : sensor_msgs.PointCloud2) (w : World) :
  reachable doTransform w ->
  curr_boxes_ (node w) = []
  /\ curr_boxes_ (node (after_frame doTransform lidar_points w)) = []
  /\ curr_boxes_
       (node (snd (for_each (clusters_of (params w) lidar_points) make_box w)))
     = fitted (params w) (clusters_of (params w) lidar_points) (obstacle_id_ (node w))
  /\ List.length
       (curr_boxes_
          (node (snd (for_each (clusters_of (params w) lidar_points) make_box w))))
     = List.length (clusters_of (params w) lidar_points)
  /\ (forall t,
        tf2_buffer w (bbox_target_frame_ (node w))
          (std_msgs.frame_id (sensor_msgs.header lidar_points)) = inl t ->
        USE_TRACKING (params w) = false ->
        List.length (prev_boxes_ (node (after_frame doTransform lidar_points w)))
        = List.length (clusters_of (params w) lidar_points)).
Proof.
  intros Hreach.
  destruct (reachable_idle doTransform w Hreach) as [Hcurr _].
  assert (Hnext : reachable doTransform (after_frame doTransform lidar_points w))
    by (eapply reachable_step; [exact Hreach | apply step_frame]).
  destruct (reachable_idle doTransform _ Hnext) as [Hcurr' _].
  rewrite first_loop_runs. cbn [snd node curr_boxes_]. rewrite Hcurr. cbn [app].
  split; [reflexivity|]. split; [exact Hcurr'|]. split; [reflexivity|].
  split; [apply fitted_length|].
  intros t H Hoff. rewrite (node_after_lookup doTransform _ _ _ H).
  cbn [prev_boxes_]. unfold frame_boxes, tracked, made_boxes.
  rewrite Hoff, Hcurr. apply fitted_length.
Qed.

Lemma no_box_is_carried_over_witness :
  curr_boxes_
    (node (snd (for_each
                  (clusters_of (obstacle_detector := test_detector)
                     (params (after_frame (obstacle_detector := test_detector) translate
                                (frame_of [origin]) (started test_config buffer_ready)))
                     (frame_of [far_away; origin]))
                  (make_box (obstacle_detector := test_detector))
                  (after_frame (obstacle_detector := test_detector) translate
                     (frame_of [origin]) (started test_config buffer_ready)))))
  = [bounding_box [far_away] 1; bounding_box [origin] 2].
Proof.
  destruct (no_box_is_carried_over (D := test_detector) translate
              (frame_of [far_away; origin])
              (after_frame (obstacle_detector := test_detector) translate
                 (frame_of [origin]) (started test_config buffer_ready)))
    as (_ & _ & Hloop & _).
  - eapply reachable_step; [apply reachable_constructed | apply step_frame].
  - rewrite Hloop. vm_compute. reflexivity.
Defined.

(** X12: in every reachable world, every detected object published so
    far is marked valid with a reliable pose, is labelled "unknown" and
    has the score 1.0, and every bounding box published so far has the
    value 1.0. *)
Theorem published_constant_fields {D : ObstacleDetector}
  (doTransform : geometry_msgs.Pose -> geometry_msgs.TransformStamped -> geometry_msgs.Pose)
  (w : World) :
  reachable doTransform w -> Forall constant_fields (trace w).
Proof.
  induction 1 as [f c l o b | w w' Hw IH Hstep].
  - constructor.
  - destruct Hstep as [w msg | w c l | w b]; [|exact IH|exact IH].
    unfold after_frame.
    destruct (tf2_buffer w (bbox_target_frame_ (node w))
                (std_msgs.frame_id (sensor_msgs.header msg))) as [t|ex] eqn:H.
    + rewrite (callback_lookup_succeeds doTransform _ _ _ H). cbn [snd trace].
      apply Forall_app. split; [exact IH|].
      apply Forall_app. split; [repeat constructor|].
      apply Forall_app. split; [apply fit_calls_constant_fields|].
      apply Forall_app. split.
      * unfold tracking_calls. destruct (USE_TRACKING (params w)); repeat constructor.
      * destruct (arrays_constant_fields doTransform w msg t (frame_boxes w msg))
          as [Hj Ha].
        constructor; [exact Hj|]. constructor; [exact Ha|]. constructor.
    + rewrite (callback_lookup_fails doTransform _ _ _ H). cbn [snd trace with_trace].
      apply Forall_app. split; [exact IH|].
      apply Forall_app. split; repeat constructor.
Qed.

Lemma published_constant_fields_witness :
  Forall constant_fields
    (trace (after_frame (obstacle_detector := test_detector) translate
              (frame_of [origin; far_away]) (started test_config buffer_ready))).
Proof.
  apply (published_constant_fields (D := test_detector) translate
           (after_frame (obstacle_detector := test_detector) translate
              (frame_of [origin; far_away]) (started test_config buffer_ready))).
  eapply reachable_step; [apply reachable_constructed | apply step_frame].
Defined.
